(** * webdriver: process supervision, session registry and the poll engine

    A shallow embedding of the Go package [webdriver] (the file that holds
    [Init], [newChromeDriver], [Shutdown], [Session] and [waitOn]).

    - Go [int] and [time.Duration] values are [Z]; slices are lists indexed
      by [Z] with the run-time bounds checks written out.
    - A Go [error] is a value of the inductive type [error]; the nil error
      is [None].
    - Everything outside the package (the operating system, HTTP, the
      chromedriver process, the remote WebDriver client) is an [environ]:
      each call appends an [event] to the history and reads its answer from
      the environment at the history so far.
    - The package-level variables [inst], [sessions], [debugFlag] and the
      mutex [smu] are the fields of [state]; the functions that touch them
      run in the monad [M], whose outcomes are a normal return, a panic, or
      blocking forever on the mutex. *)

From stdpp Require Import base option list strings.
From Stdlib Require Import ZArith Lia DecimalString.

Local Open Scope Z_scope.

(** ** Errors *)

(** The five package-level sentinels are constructors, so that [==] against a
    sentinel is a pattern match. [Errorf] is [fmt.Errorf], [Wrapf] is
    [errors.Wrapf] of pkg/errors, and [Foreign] stands for an error value
    built outside the package (HTTP, os/exec, the remote client). *)
Inductive error : Type :=
| ErrWaitTimeout
| ErrNeedRetry
| ErrUnknown
| ErrNotFound
| ErrInvaidSelectorPath
| Errorf (msg : string)
| Wrapf (cause : error) (msg : string)
| Foreign (msg : string).

(** [err.Error()]. *)
Fixpoint Error (e : error) : string :=
  match e with
  | ErrWaitTimeout => "wait timed out"
  | ErrNeedRetry => "need retry"
  | ErrUnknown => "unknown error"
  | ErrNotFound => "element not found"
  | ErrInvaidSelectorPath => "invalid selector path"
  | Errorf msg => msg
  | Wrapf cause msg => msg +:+ ": " +:+ Error cause
  | Foreign msg => msg
  end.

(** [errors.Cause]: strips the wrappers. *)
Fixpoint Cause (e : error) : error :=
  match e with
  | Wrapf cause _ => Cause cause
  | _ => e
  end.

Definition is_ErrNotFound (e : error) : bool :=
  match e with ErrNotFound => true | _ => false end.

(** ** Strings *)

(** [strings.Contains]. *)
Fixpoint Contains (s substr : string) : bool :=
  String.prefix substr s
  || match s with
     | EmptyString => false
     | String _ s' => Contains s' substr
     end.

(** [strconv.Itoa], also the [%d] and [%v] verbs of an [int]. *)
Definition Itoa (z : Z) : string := NilZero.string_of_int (Z.to_int z).

Definition nl : string := String (Ascii.ascii_of_nat 10) EmptyString.

(** [strings.Replace(s, "\n", ", ", -1)]. *)
Fixpoint ReplaceNewlines (s : string) : string :=
  match s with
  | EmptyString => EmptyString
  | String c s' =>
      if Ascii.eqb c (Ascii.ascii_of_nat 10)
      then ", " +:+ ReplaceNewlines s'
      else String c (ReplaceNewlines s')
  end.

Definition notFound (err : option error) : bool :=
  match err with
  | Some e => Contains (Error e) "no such element"
  | None => false
  end.

(** ** Slices *)

(** [l[i]] as an expression: [None] is the index-out-of-range panic. *)
Definition index {A} (l : list A) (i : Z) : option A :=
  if (0 <=? i) && (i <? Z.of_nat (length l)) then l !! Z.to_nat i else None.

(** [l[i] = x]: [None] is the index-out-of-range panic. *)
Definition assign {A} (l : list A) (i : Z) (x : A) : option (list A) :=
  if (0 <=? i) && (i <? Z.of_nat (length l))
  then Some (<[Z.to_nat i := x]> l) else None.

(** [l[:n]] for [n] up to the length: [None] is the slice-bounds panic. *)
Definition upto {A} (l : list A) (n : Z) : option (list A) :=
  if (0 <=? n) && (n <=? Z.of_nat (length l))
  then Some (take (Z.to_nat n) l) else None.

(** ** Data *)

Definition StatusOK : Z := 200.
Definition StatusBadRequest : Z := 400.
Definition StatusForbidden : Z := 403.
Definition StatusInternalServerError : Z := 500.

Definition Millisecond : Z := 1000000.
Definition Second : Z := 1000 * Millisecond.

(** [*exec.Cmd]: the command line, whether the child's output is wired to
    the caller's, whether it inherits the environment, and whether
    [Process] is set (the command was started). *)
Record Cmd := {
  Path : string;
  Args : list string;
  Stdout : bool;
  Stderr : bool;
  Env : bool;
  Process : bool
}.

Record driver := {
  port : Z;
  addr : string;
  cmd : Cmd;
  shutdownURLPath : string
}.

(** [server.d] is a [*driver]: [None] is the nil pointer. *)
Record server := {
  d : option driver;
  server_port : Z;
  ownDriver : bool
}.

(** A [*Session]: [self] is the address of the object (two pointers are
    equal when they hold the same address), [WebDriver] the embedded remote
    client, [timeout] the default deadline. *)
Record Session := {
  self : nat;
  WebDriver : nat;
  timeout : Z
}.

Definition same (s x : Session) : bool := Nat.eqb (self s) (self x).

(** An [*Element]: the session that found it and the remote element. *)
Record Element := {
  s : Session;
  WebElement : nat
}.

Inductive http_result :=
| GetErr (e : error)
| GetResp (StatusCode : Z).

(** ** The outside world *)

Inductive event :=
| EvPrintf (text : string)
| EvPgrep (name : string)
| EvGet (url : string)
| EvStart (c : Cmd)
| EvSleep (dur : Z)
| EvKill
| EvCmdWait
| EvNotify
| EvNewRemote (args : list string) (url : string)
| EvQuit (wd : nat)
| EvFindElement (wd : nat) (xpath : string)
| EvStatus (wd : nat).

(** The answers of the outside world, each at the history of calls made so
    far. [TrimSpace] and [Base] are Go's [strings.TrimSpace] and
    [filepath.Base]; [wd_Status] gives the [Ready] field of the status and
    the error; [Stack] is the text of [debug.Stack()] as [errors.Wrapf]
    formats it. *)
Record environ := {
  Getenv : string -> string;
  TrimSpace : string -> string;
  Base : string -> string;
  pgrep : list event -> string -> string;
  http_Get : list event -> string -> http_result;
  cmd_Start : list event -> Cmd -> option error;
  cmd_Wait : list event -> option error;
  Process_Kill : list event -> option error;
  NewRemote : list event -> list string -> string -> nat + error;
  wd_SessionID : nat -> string;
  wd_Quit : list event -> nat -> option error;
  wd_FindElement : list event -> nat -> string -> option nat * option error;
  wd_Status : list event -> nat -> bool * option error;
  Stack : string
}.

(** ** Package state *)

Record state := {
  inst : option server;
  sessions : list Session;
  debugFlag : bool;
  smu : bool;
  nextptr : nat;
  hist : list event
}.

Definition set_inst (v : option server) (st : state) : state :=
  {| inst := v; sessions := sessions st; debugFlag := debugFlag st;
     smu := smu st; nextptr := nextptr st; hist := hist st |}.

Definition set_sessions (v : list Session) (st : state) : state :=
  {| inst := inst st; sessions := v; debugFlag := debugFlag st;
     smu := smu st; nextptr := nextptr st; hist := hist st |}.

Definition set_debugFlag (v : bool) (st : state) : state :=
  {| inst := inst st; sessions := sessions st; debugFlag := v;
     smu := smu st; nextptr := nextptr st; hist := hist st |}.

Definition set_smu (v : bool) (st : state) : state :=
  {| inst := inst st; sessions := sessions st; debugFlag := debugFlag st;
     smu := v; nextptr := nextptr st; hist := hist st |}.

Definition set_nextptr (v : nat) (st : state) : state :=
  {| inst := inst st; sessions := sessions st; debugFlag := debugFlag st;
     smu := smu st; nextptr := v; hist := hist st |}.

(** The state once the calls [evs] have been made. *)
Definition emit_all (evs : list event) (st : state) : state :=
  {| inst := inst st; sessions := sessions st; debugFlag := debugFlag st;
     smu := smu st; nextptr := nextptr st; hist := hist st ++ evs |}.

Definition emit (e : event) (st : state) : state := emit_all [e] st.

(** ** The monad of the registry functions *)

Inductive outcome (A : Type) : Type :=
| Ret (a : A) (st : state)
| Panic (msg : string) (st : state)
| Blocked (st : state).

Arguments Ret {A} a st.
Arguments Panic {A} msg st.
Arguments Blocked {A} st.

Definition M (A : Type) : Type := state -> outcome A.

Definition ret {A} (a : A) : M A := fun st => Ret a st.

Definition bind {A B} (m : M A) (k : A -> M B) : M B :=
  fun st =>
    match m st with
    | Ret a st' => k a st'
    | Panic msg st' => Panic msg st'
    | Blocked st' => Blocked st'
    end.

#[export] Instance M_ret : MRet M := @ret.
#[export] Instance M_bind : MBind M := fun A B k m => bind m k.

Definition gets {A} (f : state -> A) : M A := fun st => Ret (f st) st.
Definition modify (f : state -> state) : M unit := fun st => Ret tt (f st).
Definition panic {A} (msg : string) : M A := fun st => Panic msg st.

(** A slice operation that may panic. *)
Definition checked {A} (msg : string) (o : option A) : M A :=
  match o with
  | Some a => ret a
  | None => panic msg
  end.

(** [smu.Lock()]: a second lock by the one running sequence never
    returns. *)
Definition Lock : M unit :=
  fun st => if smu st then Blocked st else Ret tt (set_smu true st).

Definition Unlock : M unit :=
  fun st =>
    if smu st then Ret tt (set_smu false st)
    else Panic "sync: unlock of unlocked mutex" st.

(** [smu.Lock(); defer smu.Unlock(); body]: the deferred unlock also runs
    when the body panics. *)
Definition locked {A} (body : M A) : M A :=
  fun st =>
    match Lock st with
    | Ret _ st1 =>
        match body st1 with
        | Ret a st2 => bind Unlock (fun _ => ret a) st2
        | Panic msg st2 => bind Unlock (fun _ => panic msg) st2
        | Blocked st2 => Blocked st2
        end
    | Panic msg st1 => Panic msg st1
    | Blocked st1 => Blocked st1
    end.

Definition Printf (text : string) : M unit := modify (emit (EvPrintf text)).

Section Package.

Variable E : environ.

(** *** Remote session calls used by the registry *)

Definition Quit (x : Session) : M (option error) :=
  fun st => Ret (wd_Quit E (hist st) (WebDriver x))
                (emit (EvQuit (WebDriver x)) st).

Definition SessionID (x : Session) : string := wd_SessionID E (WebDriver x).

(** *** Session.Close *)

(** The search loop of [Close]: the index of the first entry that is the
    session, or the index one past the end when there is none. *)
Fixpoint search (x : Session) (l : list Session) (idx : Z) : Z :=
  match l with
  | [] => idx
  | y :: l' => if same x y then idx else search x l' (idx + 1)
  end.

Definition Session_Close (x : Session) : M (option error) :=
  Lock ;;
  l ← gets sessions ;
  let idx := search x l 0 in
  last ← checked "index out of range" (index l (Z.of_nat (length l) - 1)) ;
  l1 ← checked "index out of range" (assign l idx last) ;
  l2 ← checked "slice bounds out of range"
               (upto l1 (Z.of_nat (length l1) - 1)) ;
  modify (set_sessions l2) ;;
  Unlock ;;
  Quit x.

(** *** driver.Stop *)

Definition Get (url : string) : M http_result :=
  fun st => Ret (http_Get E (hist st) url) (emit (EvGet url) st).

Definition Kill : M (option error) :=
  fun st => Ret (Process_Kill E (hist st)) (emit EvKill st).

Definition cmd_Wait_ : M (option error) :=
  fun st => Ret (cmd_Wait E (hist st)) (emit EvCmdWait st).

Definition Stop (dr : option driver) : M (option error) :=
  match dr with
  | None => panic "nil pointer dereference"
  | Some dr =>
      r ← (if String.eqb (shutdownURLPath dr) ""
           then (if Process (cmd dr) then Kill
                 else panic "nil pointer dereference")
           else resp ← Get (addr dr +:+ shutdownURLPath dr) ;
                match resp with
                | GetErr e => ret (Some e)
                | GetResp _ => ret None
                end) ;
      match r with
      | Some e => ret (Some e)
      | None =>
          w ← cmd_Wait_ ;
          match w with
          | Some e =>
              if negb (String.eqb (Error e) "signal: killed")
              then ret (Some e) else ret None
          | None => ret None
          end
      end
  end.

(** *** newChromeDriver *)

Definition SetDebug (debug : bool) : M unit := modify (set_debugFlag debug).

Definition Sleep (dur : Z) : M unit := modify (emit (EvSleep dur)).

(** The closure [status] of [newChromeDriver]. *)
Definition status_code (r : http_result) : Z :=
  match r with
  | GetResp c =>
      if (c =? StatusForbidden) || (c =? StatusBadRequest) || (c =? StatusOK)
      then StatusOK else c
  | GetErr _ => StatusInternalServerError
  end.

Definition status (a : string) : M Z :=
  resp ← Get (a +:+ "/status") ; ret (status_code resp).

Definition Start (c : Cmd) : M (option error) :=
  fun st => Ret (cmd_Start E (hist st) c) (emit (EvStart c) st).

Definition started (c : Cmd) : Cmd :=
  {| Path := Path c; Args := Args c; Stdout := Stdout c; Stderr := Stderr c;
     Env := Env c; Process := true |}.

Definition with_cmd (c : Cmd) (dr : driver) : driver :=
  {| port := port dr; addr := addr dr; cmd := c;
     shutdownURLPath := shutdownURLPath dr |}.

(** The loop [for i := 0; i < 30; i++], with [n] iterations left. *)
Fixpoint poll (n : nat) (dr : driver)
  : M (option driver * bool * option error) :=
  match n with
  | O =>
      ret (None, false,
           Some (Errorf ("failed to start chrome driver on port "
                         +:+ Itoa (port dr))))
  | S n' =>
      Sleep Second ;;
      c ← status (addr dr) ;
      if c =? StatusOK then ret (Some dr, true, None) else poll n' dr
  end.

(** The driver value [newChromeDriver] builds first; [dbg] is the value of
    [debugFlag] at that moment. *)
Definition chromeDriver (path : string) (p : Z) (dbg : bool) : driver :=
  {| port := p;
     addr := "http://localhost:" +:+ Itoa p +:+ "/wd/hub";
     shutdownURLPath := "/shutdown";
     cmd := {| Path := path;
               Args := [path; "--port=" +:+ Itoa p; "--url-base=wd/hub";
                        "--verbose"];
               Stderr := dbg; Stdout := dbg; Env := true;
               Process := false |} |}.

Definition newChromeDriver (path : string) (p : Z)
  : M (option driver * bool * option error) :=
  dbg ← gets debugFlag ;
  let dr := chromeDriver path p dbg in
  c ← status (addr dr) ;
  if c =? StatusOK then ret (Some dr, false, None)
  else
    Printf ("*** [webdriver] starting chromedriver ***" +:+ nl) ;;
    err ← Start (cmd dr) ;
    match err with
    | Some e => ret (None, false, Some e)
    | None => poll 30 (with_cmd (started (cmd dr)) dr)
    end.

(** *** Init *)

Definition Pgrep (name : string) : M string :=
  fun st => Ret (pgrep E (hist st) name) (emit (EvPgrep name) st).

(** [signal.Notify] and the goroutine that waits for the signal. *)
Definition Notify : M unit := modify (emit EvNotify).

Definition Init (p : Z) (debug : bool) : M (option error) :=
  let chromeDriverPath := TrimSpace E (Getenv E "CHROME_DRIVER") in
  if String.eqb chromeDriverPath ""
  then ret (Some (Errorf "env CHROME_DRIVER is missing"))
  else if p <? 1000
  then ret (Some (Errorf ("driver port < 1000: " +:+ Itoa p)))
  else
    out ← Pgrep (Base E chromeDriverPath) ;
    let pidStr := TrimSpace E out in
    (if (0 <? Z.of_nat (String.length pidStr))
     then Printf ("*** [webdriver] detected chrome driver running process (PIDs = "
                  +:+ ReplaceNewlines pidStr +:+ ") ***" +:+ nl)
     else ret tt) ;;
    locked (
      i ← gets inst ;
      match i with
      | Some _ => ret None
      | None =>
          SetDebug debug ;;
          r ← newChromeDriver chromeDriverPath p ;
          match r with
          | (_, _, Some e) => ret (Some e)
          | (dr, isOwned, None) =>
              modify (set_inst (Some {| d := dr; server_port := p;
                                        ownDriver := isOwned |})) ;;
              Notify ;;
              ret None
          end
      end).

(** *** Shutdown *)

(** The loop [for _, s := range sessions]. *)
Fixpoint quit_all (l : list Session) : M unit :=
  match l with
  | [] => ret tt
  | x :: l' =>
      Printf ("*** [webdriver] closing session " +:+ SessionID x
              +:+ " ***" +:+ nl) ;;
      Quit x ;;
      quit_all l'
  end.

Definition Shutdown : M unit :=
  locked (
    l ← gets sessions ;
    quit_all l ;;
    modify (set_sessions []) ;;
    i ← gets inst ;
    (match i with
     | Some sv =>
         if ownDriver sv
         then Printf ("*** [webdriver] stopping webdriver ***" +:+ nl) ;;
              Stop (d sv) ;;
              modify (set_inst None)
         else Printf ("*** [webdriver] leave alone webdriver (not owned) ***"
                      +:+ nl)
     | None =>
         Printf ("*** [webdriver] leave alone webdriver (not owned) ***"
                 +:+ nl)
     end) ;;
    Printf ("*** [webdriver] shutdown complete ***" +:+ nl +:+ nl)).

(** *** New *)

Definition Remote (args : list string) (url : string) : M (nat + error) :=
  fun st => Ret (NewRemote E (hist st) args url)
                (emit (EvNewRemote args url) st).

Definition New (profile : string) (w h : Z) (headless : bool) (tmo : Z)
  : M (option Session * option error) :=
  let args :=
    ["window-size=" +:+ Itoa w +:+ "," +:+ Itoa h; "disable-notifications"]
    ++ (if headless then ["headless"] else [])
    ++ (if String.eqb profile "" then [] else ["user-data-dir=" +:+ profile]) in
  i ← gets inst ;
  match i with
  | None => panic "nil pointer dereference"
  | Some sv =>
      r ← Remote args ("http://localhost:" +:+ Itoa (server_port sv)
                       +:+ "/wd/hub") ;
      match r with
      | inr e => ret (None, Some e)
      | inl wd =>
          a ← gets nextptr ;
          modify (set_nextptr (S a)) ;;
          let x := {| self := a; WebDriver := wd; timeout := tmo |} in
          locked (
            l ← gets sessions ;
            modify (set_sessions (l ++ [x])) ;;
            ret (Some x, None))
      end
  end.

End Package.

(** ** The poll engine *)

(** The two channels of the [select] in [waitOn]. *)
Inductive chan := ticker_C | to_C.

Section Poll.

Context {St : Type}.

(** A probe [func() (bool, error)] acting on the state it closes over. *)
Definition probe : Type := St -> (bool * option error) * St.

(** The [for { select { ... } }] loop of [waitOn], given the channel each
    successive [select] receives from. [None] means that the loop is still
    blocked in [select] when the given receptions are used up. *)
Fixpoint waitOn_loop (stack : string) (fn : probe) (sel : list chan) (st : St)
  : option (option error) * St :=
  match sel with
  | [] => (None, st)
  | ticker_C :: sel' =>
      let '((done, err), st') := fn st in
      match err with
      | Some e => (Some (Some e), st')
      | None => if done then (Some None, st') else waitOn_loop stack fn sel' st'
      end
  | to_C :: _ => (Some (Some (Wrapf ErrWaitTimeout stack)), st)
  end.

End Poll.

(** *** Timers *)

(** The clock of one [waitOn] call, in nanoseconds since the call armed its
    ticker and timer: [tickAt] is the instant from which [ticker.C] holds a
    value, [toAt] the instant from which [to.C] does. *)
Record timers := {
  now : Z;
  tickAt : Z;
  toAt : Z
}.

Definition period : Z := 1000 * Millisecond.

(** [time.NewTicker(1000 * time.Millisecond)] and [time.NewTimer(timeout)];
    a timer with a non-positive duration fires at once. *)
Definition arm (tmo : Z) : timers :=
  {| now := 0; tickAt := period; toAt := Z.max 0 tmo |}.

(** One [select]: the channel received from and the instant of the
    reception. A channel that already holds a value is received from at
    once; when both do, Go picks one at random ([coin]); when neither does,
    the sequence sleeps until the earlier one fires ([coin] again when both
    fire at the same instant). *)
Definition select (coin : bool) (tm : timers) : chan * Z :=
  let tick_ready := tickAt tm <=? now tm in
  let to_ready := toAt tm <=? now tm in
  if tick_ready && to_ready then (if coin then ticker_C else to_C, now tm)
  else if tick_ready then (ticker_C, now tm)
  else if to_ready then (to_C, now tm)
  else if tickAt tm <? toAt tm then (ticker_C, tickAt tm)
  else if toAt tm <? tickAt tm then (to_C, toAt tm)
  else (if coin then ticker_C else to_C, tickAt tm).

(** The clock after a tick received at instant [t] whose probe took [dur]:
    the ticker channel has room for one value, so the ticks that fell due
    while it was full are dropped and it holds a value again from the first
    tick instant after [t]. *)
Definition after_tick (tm : timers) (t dur : Z) : timers :=
  {| now := t + Z.max 0 dur;
     tickAt := tickAt tm + period * ((t - tickAt tm) / period + 1);
     toAt := toAt tm |}.

(** The receptions of the successive [select]s of one call; [rt] gives, for
    each iteration, the random choice of [select] and the time the probe
    takes if it runs. *)
Fixpoint selects (tm : timers) (rt : list (bool * Z)) : list chan :=
  match rt with
  | [] => []
  | (coin, dur) :: rt' =>
      match select coin tm with
      | (ticker_C, t) => ticker_C :: selects (after_tick tm t dur) rt'
      | (to_C, _) => [to_C]
      end
  end.

Definition waitOn {St} (stack : string) (fn : @probe St) (tmo : Z)
  (rt : list (bool * Z)) (st : St) : option (option error) * St :=
  waitOn_loop stack fn (selects (arm tmo) rt) st.

(** A probe that also counts its invocations. *)
Definition counted {St} (fn : @probe St) : @probe (St * nat) :=
  fun '(st, n) => let '(r, st') := fn st in (r, (st', S n)).

(** ** Locating elements *)

Section Locate.

Variable E : environ.

Definition FindElement (x : Session) (xpath : string) (st : state)
  : (option nat * option error) * state :=
  (wd_FindElement E (hist st) (WebDriver x) xpath,
   emit (EvFindElement (WebDriver x) xpath) st).

Definition Status (x : Session) (st : state)
  : (bool * option error) * state :=
  (wd_Status E (hist st) (WebDriver x), emit (EvStatus (WebDriver x)) st).

Definition Session_find (x : Session) (xpath : string) (st : state)
  : (option Element * option error) * state :=
  let '((elem, err), st') := FindElement x xpath st in
  if notFound err then ((None, Some ErrNotFound), st')
  else match err with
       | Some e => ((None, Some e), st')
       | None =>
           match elem with
           | None => ((None, Some ErrNotFound), st')
           | Some we => ((Some {| s := x; WebElement := we |}, None), st')
           end
       end.

(** The probe of [GetDOMTimeout]; the captured variable [ret] is the first
    component of its state. *)
Definition GetDOM_probe (x : Session) (xpath : string)
  : @probe (option Element * state) :=
  fun '(ret, st) =>
    let '((elem, err), st') := Session_find x xpath st in
    match err with
    | Some e =>
        if is_ErrNotFound e then ((false, None), (ret, st'))
        else ((true, Some e), (ret, st'))
    | None =>
        match elem with
        | None => ((false, None), (ret, st'))
        | Some _ => ((true, None), (elem, st'))
        end
    end.

(** [GetDOMTimeout] returns [(ret, err)]; [None] when [waitOn] has not
    returned within the modelled iterations. *)
Definition Session_GetDOMTimeout (x : Session) (xpath : string) (to : Z)
  (rt : list (bool * Z)) (st : state)
  : option (option Element * option error) * state :=
  let '(r, (ret, st')) :=
    waitOn (Stack E) (GetDOM_probe x xpath) to rt (None, st) in
  (match r with Some err => Some (ret, err) | None => None end, st').

Definition Session_GetDOM (x : Session) (xpath : string)
  (rt : list (bool * Z)) (st : state)
  : option (option Element * option error) * state :=
  Session_GetDOMTimeout x xpath (timeout x) rt st.

(** The loop [for idx, xpath := range xpaths] of the probe of [Wait], from
    index [idx] on. *)
Fixpoint Wait_scan (x : Session) (xpaths : list string) (idx : Z)
  (selected : Z) (st : state) : (bool * option error) * (Z * state) :=
  match xpaths with
  | [] => ((false, None), (selected, st))
  | xpath :: rest =>
      let '((result, err), st') := Session_find x xpath st in
      match err with
      | Some e =>
          if is_ErrNotFound e then Wait_scan x rest (idx + 1) selected st'
          else ((true, Some e), (selected, st'))
      | None =>
          match result with
          | Some _ => ((true, None), (idx, st'))
          | None => Wait_scan x rest (idx + 1) selected st'
          end
      end
  end.

(** The probe of [Session.Wait]; the captured variable [selected] is the
    first component of its state. *)
Definition Wait_probe (x : Session) (xpaths : list string)
  : @probe (Z * state) :=
  fun '(selected, st) =>
    let '((ready, err), st') := Status x st in
    match err with
    | Some e => ((true, Some e), (selected, st'))
    | None =>
        if negb ready then ((false, None), (selected, st'))
        else Wait_scan x xpaths 0 selected st'
    end.

Definition Session_Wait (x : Session) (xpaths : list string)
  (rt : list (bool * Z)) (st : state) : option (Z * option error) * state :=
  let '(r, (selected, st')) :=
    waitOn (Stack E) (Wait_probe x xpaths) (timeout x) rt (-1, st) in
  (match r with Some err => Some (selected, err) | None => None end, st').

End Locate.

(** ** Vocabulary of the statements *)

(** The status codes that [newChromeDriver] takes as "the engine is
    alive": Forbidden, BadRequest and OK. *)
Definition recognized (r : http_result) : bool :=
  match r with
  | GetResp c =>
      (c =? StatusForbidden) || (c =? StatusBadRequest) || (c =? StatusOK)
  | GetErr _ => false
  end.

(** [n] rounds of "sleep one second, then probe [url]". *)
Fixpoint poll_events (url : string) (n : nat) : list event :=
  match n with
  | O => []
  | S n' => EvSleep Second :: EvGet url :: poll_events url n'
  end.

(** The notice printed before the engine is spawned. *)
Definition starting : event :=
  EvPrintf ("*** [webdriver] starting chromedriver ***" +:+ nl).

(** The calls of the first lines of [Init] once its arguments are accepted:
    the [pgrep] detection and, when it finds a process, the notice. *)
Definition detection (E : environ) (h : list event) : list event :=
  let chromeDriverPath := TrimSpace E (Getenv E "CHROME_DRIVER") in
  let pidStr := TrimSpace E (pgrep E h (Base E chromeDriverPath)) in
  EvPgrep (Base E chromeDriverPath)
  :: (if 0 <? Z.of_nat (String.length pidStr)
      then [EvPrintf ("*** [webdriver] detected chrome driver running process (PIDs = "
                      +:+ ReplaceNewlines pidStr +:+ ") ***" +:+ nl)]
      else []).

(** What [Init] establishes about the supervisor it records: the driver
    pointer is not nil and its shutdown path is the one [newChromeDriver]
    sets. *)
Definition registry_ok (st : state) : Prop :=
  forall sv, inst st = Some sv ->
    exists dr, d sv = Some dr /\ shutdownURLPath dr = "/shutdown".

(** The address [newChromeDriver] probes for port [p]. *)
Definition status_url (p : Z) : string :=
  ("http://localhost:" +:+ Itoa p +:+ "/wd/hub") +:+ "/status".

(** The remote sessions that the calls [evs] quit, in order. *)
Definition quits (evs : list event) : list nat :=
  flat_map (fun e => match e with EvQuit wd => [wd] | _ => [] end) evs.

Definition is_Kill (e : event) : bool :=
  match e with EvKill => true | _ => false end.

Definition stopping_notice : event :=
  EvPrintf ("*** [webdriver] stopping webdriver ***" +:+ nl).

Definition leave_alone_notice : event :=
  EvPrintf ("*** [webdriver] leave alone webdriver (not owned) ***" +:+ nl).

Definition complete_notice : event :=
  EvPrintf ("*** [webdriver] shutdown complete ***" +:+ nl +:+ nl).

(** The supervisor marker that [Shutdown] leaves behind. *)
Definition marker_after (i : option server) : option server :=
  match i with
  | Some sv => if ownDriver sv then None else Some sv
  | None => None
  end.

(** The calls [Shutdown] makes to close the sessions [l]. *)
Definition quit_events (E : environ) (l : list Session) : list event :=
  flat_map (fun x => [EvPrintf ("*** [webdriver] closing session "
                                +:+ wd_SessionID E (WebDriver x)
                                +:+ " ***" +:+ nl);
                      EvQuit (WebDriver x)]) l.

Definition is_Quit (e : event) : bool :=
  match e with EvQuit _ => true | _ => false end.

(** The calls that stop or kill the engine process. *)
Definition is_stop (e : event) : bool :=
  match e with EvGet _ | EvKill | EvCmdWait => true | _ => false end.

(** The calls that probe, spawn or adopt an engine process. *)
Definition is_acquire (e : event) : bool :=
  match e with
  | EvGet _ | EvStart _ | EvSleep _ | EvNotify => true
  | _ => false
  end.

(** The answers of [FindElement] on which the locating probes keep
    waiting: an error whose text has "no such element", the sentinel
    [ErrNotFound], or neither an element nor an error. *)
Definition no_match (r : option nat * option error) : bool :=
  match r with
  | (_, Some e) => notFound (Some e) || is_ErrNotFound e
  | (None, None) => true
  | (Some _, None) => false
  end.

(** The paths before index [k] match nothing when they are tried in turn
    from the state [st]. *)
Definition quiet (E : environ) (x : Session) (xpaths : list string) (k : nat)
  (st : state) : Prop :=
  forall j p, (j < k)%nat -> xpaths !! j = Some p ->
    no_match (wd_FindElement E
                (hist st ++ map (EvFindElement (WebDriver x)) (take j xpaths))
                (WebDriver x) p) = true.

(** The state a probe has reached after [n] invocations. *)
Definition after {St} (fn : @probe St) (n : nat) (st : St) : St :=
  Nat.iter n (fun s => (fn s).2) st.

(** The first [n] invocations of the probe all answer [(false, nil)]. *)
Definition waits {St} (fn : @probe St) (n : nat) (st : St) : Prop :=
  forall i, (i < n)%nat -> (fn (after fn i st)).1 = (false, None).

(** ** Concrete environments

    Small deterministic worlds on which the definitions above evaluate. *)

Definition is_Get (e : event) : bool :=
  match e with EvGet _ => true | _ => false end.

Definition is_Find (e : event) : bool :=
  match e with EvFindElement _ _ => true | _ => false end.

Definition is_Status (e : event) : bool :=
  match e with EvStatus _ => true | _ => false end.

Definition so_far (f : event -> bool) (h : list event) : nat :=
  length (List.filter f h).

Definition no_such_element : option nat * option error :=
  (None, Some (Foreign "no such element: Unable to locate element")).

(** A machine whose [CHROME_DRIVER] is set and where no process answers on
    the port until [up] requests have been made, which answers 200 from then
    on. The command starts unless [start] is an error. The engine reports
    ready from its [ready]-th status query on, and a path matches nothing
    until [appears] searches have been made, after which the search for
    [xpath] is answered by [dom xpath]. Every other call succeeds. *)
Definition world (up : nat) (start : option error) (ready appears : nat)
  (dom : string -> option nat * option error) : environ :=
  {| Getenv := fun name =>
       if String.eqb name "CHROME_DRIVER" then "/opt/chromedriver" else "";
     TrimSpace := fun t => t;
     Base := fun _ => "chromedriver";
     pgrep := fun _ _ => "";
     http_Get := fun h _ =>
       if (so_far is_Get h <? up)%nat
       then GetErr (Foreign "connection refused")
       else GetResp StatusOK;
     cmd_Start := fun _ _ => start;
     cmd_Wait := fun _ => None;
     Process_Kill := fun _ => None;
     NewRemote := fun h _ _ => inl (length h);
     wd_SessionID := fun _ => "session";
     wd_Quit := fun _ _ => None;
     wd_FindElement := fun h _ xpath =>
       if (so_far is_Find h <? appears)%nat then no_such_element
       else dom xpath;
     wd_Status := fun h _ => ((ready <=? so_far is_Status h)%nat, None);
     Stack := "goroutine 1 [running]" |}.

(** The same machine showing a page on which nothing matches. *)
Definition machine (up : nat) : environ :=
  world up None 0 0 (fun _ => no_such_element).

(** A page on which ["//b"] is element 7 and nothing else matches. *)
Definition page (xpath : string) : option nat * option error :=
  if String.eqb xpath "//b" then (Some 7%nat, None) else no_such_element.

(** A remote end whose session is gone. *)
Definition gone (xpath : string) : option nat * option error :=
  (None, Some (Foreign "invalid session id")).

(** A remote end whose status query fails. *)
Definition unreachable : environ :=
  {| Getenv := Getenv (machine 0); TrimSpace := TrimSpace (machine 0);
     Base := Base (machine 0); pgrep := pgrep (machine 0);
     http_Get := http_Get (machine 0); cmd_Start := cmd_Start (machine 0);
     cmd_Wait := cmd_Wait (machine 0);
     Process_Kill := Process_Kill (machine 0);
     NewRemote := NewRemote (machine 0);
     wd_SessionID := wd_SessionID (machine 0);
     wd_Quit := wd_Quit (machine 0);
     wd_FindElement := wd_FindElement (machine 0);
     wd_Status := fun _ _ => (false, Some (Foreign "connection reset"));
     Stack := Stack (machine 0) |}.

(** The machine with a spawned engine on which quitting remote session 1
    fails. *)
Definition flaky : environ :=
  {| Getenv := Getenv (machine 3); TrimSpace := TrimSpace (machine 3);
     Base := Base (machine 3); pgrep := pgrep (machine 3);
     http_Get := http_Get (machine 3); cmd_Start := cmd_Start (machine 3);
     cmd_Wait := cmd_Wait (machine 3);
     Process_Kill := Process_Kill (machine 3);
     NewRemote := NewRemote (machine 3);
     wd_SessionID := wd_SessionID (machine 3);
     wd_Quit := fun _ wd =>
       if Nat.eqb wd 1 then Some (Foreign "invalid session id") else None;
     wd_FindElement := wd_FindElement (machine 3);
     wd_Status := wd_Status (machine 3);
     Stack := Stack (machine 3) |}.

Definition initial : state :=
  {| inst := None; sessions := []; debugFlag := false; smu := false;
     nextptr := 0; hist := [] |}.

Definition session (a : nat) : Session :=
  {| self := a; WebDriver := a; timeout := 3 * Second |}.

Definition state_of {A} (o : outcome A) : state :=
  match o with
  | Ret _ st => st
  | Panic _ st => st
  | Blocked st => st
  end.

(** The state after an engine that was already running has been adopted on
    port 9090. *)
Definition adopted : state := state_of (Init (machine 0) 9090 false initial).

(** The state after an engine has been spawned on port 9090. *)
Definition spawned : state := state_of (Init (machine 3) 9090 false initial).

(** The spawned engine with two sessions open. *)
Definition busy : state := set_sessions [session 1; session 2] spawned.

(** Five iterations whose probes take 5 ns each, with [select] preferring
    the ticker when it has a choice. *)
Definition five : list (bool * Z) :=
  [(true, 5); (true, 5); (true, 5); (true, 5); (true, 5)].

(** A probe over a counter that reports success from its third invocation
    on, and one that fails at its third invocation. *)
Definition third_time : @probe nat :=
  fun k => (((2 <=? k)%nat, None), S k).


(** ** Further functions of the package *)

(** [StaleElement]. *)
Definition StaleElement (err : option error) : bool :=
  match err with
  | Some e => Contains (Error e) "stale element reference"
  | None => false
  end.

Definition is_ErrNeedRetry (e : error) : bool :=
  match e with ErrNeedRetry => true | _ => false end.

(** The condition on which [NoStale] tries again:
    [err == ErrNeedRetry || StaleElement(err)]. *)
Definition retryable (err : option error) : bool :=
  match err with Some e => is_ErrNeedRetry e | None => false end
  || StaleElement err.

(** The probe of [Session.NoStale] over the function [fn] it is given. *)
Definition NoStale_probe {St} (fn : St -> option error * St) : @probe St :=
  fun st =>
    let '(err, st') := fn st in
    if retryable err then ((false, None), st') else ((true, err), st').

Definition Session_NoStale {St} (stack : string) (x : Session)
  (fn : St -> option error * St) (rt : list (bool * Z)) (st : St)
  : option (option error) * St :=
  waitOn stack (NoStale_probe fn) (timeout x) rt st.

(** *** Locating through any finder

    [Session.find] and [Element.find] have the same body and differ in the
    remote call they make ([s.FindElement] or [e.WebElement.FindElement]) and
    in the session they bind the result to ([s] or [e.s]); likewise
    [findN], [GetDOM], [GetDOMs] and [Wait]. The definitions below are that
    body over a world [W], with the remote calls as state-passing
    functions. *)

Section Finders.

Context {W : Type}.

(** A remote [FindElement(ByXPATH, _)] and [FindElements(ByXPATH, _)]. *)
Definition finder : Type := string -> W -> (option nat * option error) * W.
Definition findersN : Type := string -> W -> (list nat * option error) * W.

Definition find_with (f : finder) (sess : Session) (xpath : string) (w : W)
  : (option Element * option error) * W :=
  let '((elem, err), w') := f xpath w in
  if notFound err then ((None, Some ErrNotFound), w')
  else match err with
       | Some e => ((None, Some e), w')
       | None =>
           match elem with
           | None => ((None, Some ErrNotFound), w')
           | Some we => ((Some {| s := sess; WebElement := we |}, None), w')
           end
       end.

Definition findN_with (f : findersN) (sess : Session) (xpath : string) (w : W)
  : (list Element * option error) * W :=
  let '((elements, err), w') := f xpath w in
  if notFound err then (([], Some ErrNotFound), w')
  else match err with
       | Some e => (([], Some e), w')
       | None =>
           if (Z.of_nat (length elements) =? 0) then (([], Some ErrNotFound), w')
           else ((map (fun we => {| s := sess; WebElement := we |}) elements,
                  None), w')
       end.

(** The probe of [GetDOM]; the captured [ret] is the first component. *)
Definition GetDOM_probe_with (f : finder) (sess : Session) (xpath : string)
  : @probe (option Element * W) :=
  fun '(ret, w) =>
    let '((elem, err), w') := find_with f sess xpath w in
    match err with
    | Some e =>
        if is_ErrNotFound e then ((false, None), (ret, w'))
        else ((true, Some e), (ret, w'))
    | None =>
        match elem with
        | None => ((false, None), (ret, w'))
        | Some _ => ((true, None), (elem, w'))
        end
    end.

Definition GetDOM_with (stack : string) (f : finder) (sess : Session)
  (xpath : string) (to : Z) (rt : list (bool * Z)) (w : W)
  : option (option Element * option error) * W :=
  let '(r, (ret, w')) :=
    waitOn stack (GetDOM_probe_with f sess xpath) to rt (None, w) in
  (match r with Some err => Some (ret, err) | None => None end, w').

(** The probe of [GetDOMs]. *)
Definition GetDOMs_probe_with (f : findersN) (sess : Session) (xpath : string)
  : @probe (list Element * W) :=
  fun '(ret, w) =>
    let '((elems, err), w') := findN_with f sess xpath w in
    match err with
    | Some e =>
        if is_ErrNotFound e then ((false, None), (ret, w'))
        else ((true, Some e), (ret, w'))
    | None =>
        if (Z.of_nat (length elems) =? 0) then ((false, None), (ret, w'))
        else ((true, None), (elems, w'))
    end.

Definition GetDOMs_with (stack : string) (f : findersN) (sess : Session)
  (xpath : string) (rt : list (bool * Z)) (w : W)
  : option (list Element * option error) * W :=
  let '(r, (ret, w')) :=
    waitOn stack (GetDOMs_probe_with f sess xpath) (timeout sess) rt ([], w) in
  (match r with Some err => Some (ret, err) | None => None end, w').

(** The loop and the probe of [Wait]; [status] is [s.Status()]. *)
Fixpoint Wait_scan_with (f : finder) (sess : Session) (xpaths : list string)
  (idx : Z) (selected : Z) (w : W) : (bool * option error) * (Z * W) :=
  match xpaths with
  | [] => ((false, None), (selected, w))
  | xpath :: rest =>
      let '((result, err), w') := find_with f sess xpath w in
      match err with
      | Some e =>
          if is_ErrNotFound e
          then Wait_scan_with f sess rest (idx + 1) selected w'
          else ((true, Some e), (selected, w'))
      | None =>
          match result with
          | Some _ => ((true, None), (idx, w'))
          | None => Wait_scan_with f sess rest (idx + 1) selected w'
          end
      end
  end.

Definition Wait_probe_with (status : W -> (bool * option error) * W)
  (f : finder) (sess : Session) (xpaths : list string) : @probe (Z * W) :=
  fun '(selected, w) =>
    let '((ready, err), w') := status w in
    match err with
    | Some e => ((true, Some e), (selected, w'))
    | None =>
        if negb ready then ((false, None), (selected, w'))
        else Wait_scan_with f sess xpaths 0 selected w'
    end.

Definition Wait_with (stack : string) (status : W -> (bool * option error) * W)
  (f : finder) (sess : Session) (xpaths : list string)
  (rt : list (bool * Z)) (w : W) : option (Z * option error) * W :=
  let '(r, (selected, w')) :=
    waitOn stack (Wait_probe_with status f sess xpaths) (timeout sess) rt
      (-1, w) in
  (match r with Some err => Some (selected, err) | None => None end, w').

(** The remote end of the functions below: the calls of a session's
    [WebDriver] and of an element's [WebElement] that they make. *)
Record remote := {
  r_Status : nat -> W -> (bool * option error) * W;
  r_FindElement : nat -> string -> W -> (option nat * option error) * W;
  r_FindElements : nat -> string -> W -> (list nat * option error) * W;
  e_FindElement : nat -> string -> W -> (option nat * option error) * W;
  e_FindElements : nat -> string -> W -> (list nat * option error) * W;
  r_ExecuteScript : nat -> string -> list nat -> W -> option error * W;
  e_IsDisplayed : nat -> W -> (bool * option error) * W;
  e_Click : nat -> W -> option error * W;
  r_Stack : string
}.

Variable R : remote.

Definition Session_findN (x : Session) : string -> W -> _ :=
  findN_with (r_FindElements R (WebDriver x)) x.

Definition Session_GetDOMs (x : Session) : string -> list (bool * Z) -> W -> _ :=
  GetDOMs_with (r_Stack R) (r_FindElements R (WebDriver x)) x.

Definition Element_find (e : Element) : string -> W -> _ :=
  find_with (e_FindElement R (WebElement e)) (s e).

Definition Element_findN (e : Element) : string -> W -> _ :=
  findN_with (e_FindElements R (WebElement e)) (s e).

Definition Element_GetDOM (e : Element) (xpath : string)
  : list (bool * Z) -> W -> _ :=
  GetDOM_with (r_Stack R) (e_FindElement R (WebElement e)) (s e) xpath
    (timeout (s e)).

Definition Element_GetDOMs (e : Element) : string -> list (bool * Z) -> W -> _ :=
  GetDOMs_with (r_Stack R) (e_FindElements R (WebElement e)) (s e).

Definition Element_Wait (e : Element) : list string -> list (bool * Z) -> W -> _ :=
  Wait_with (r_Stack R) (r_Status R (WebDriver (s e)))
    (e_FindElement R (WebElement e)) (s e).

(** The probe of [ScrollIntoView]. *)
Definition displayed_probe (e : Element) : @probe W :=
  fun w =>
    let '((displayed, err), w') := e_IsDisplayed R (WebElement e) w in
    match err with
    | Some er => ((true, Some er), w')
    | None => if displayed then ((true, None), w') else ((false, None), w')
    end.

Definition quote : string := String (Ascii.ascii_of_nat 34) EmptyString.

(** The script of [ScrollIntoView]. *)
Definition scroll_script : string :=
  "arguments[0].scrollIntoView({behavior: " +:+ quote +:+ "auto" +:+ quote
  +:+ ", block: " +:+ quote +:+ "center" +:+ quote
  +:+ ", inline: " +:+ quote +:+ "center" +:+ quote +:+ "});".

Definition Element_ScrollIntoView (e : Element) (rt : list (bool * Z)) (w : W)
  : option (option error) * W :=
  let '(err, w') :=
    r_ExecuteScript R (WebDriver (s e)) scroll_script [WebElement e] w in
  match err with
  | Some er => (Some (Some er), w')
  | None => waitOn (r_Stack R) (displayed_probe e) (timeout (s e)) rt w'
  end.

(** *** ClickDOM

    The probe of [ClickDOM] calls [ScrollIntoView], which waits in its
    turn, so the probe may not return within the modelled iterations of that
    inner wait. A probe that may not return has an optional answer;
    [waitOn_loop_p] is the loop of [waitOn] over such probes. *)

Definition pprobe : Type := W -> option ((bool * option error) * W).

Fixpoint waitOn_loop_p (stack : string) (fn : pprobe) (sel : list chan)
  (w : W) : option (option error) * W :=
  match sel with
  | [] => (None, w)
  | ticker_C :: sel' =>
      match fn w with
      | None => (None, w)
      | Some ((done, err), w') =>
          match err with
          | Some e => (Some (Some e), w')
          | None =>
              if done then (Some None, w') else waitOn_loop_p stack fn sel' w'
          end
      end
  | to_C :: _ => (Some (Some (Wrapf ErrWaitTimeout stack)), w)
  end.

(** The probe of [ClickDOM]; [inner w] is the timing of the wait that
    [ScrollIntoView] starts in the world [w]. After a find without error the
    element is not nil; the probe does not return on a nil one. *)
Definition ClickDOM_probe (f : finder) (sess : Session)
  (inner : W -> list (bool * Z)) (xpath : string) : pprobe :=
  fun w =>
    let '((elem, err), w1) := find_with f sess xpath w in
    match err with
    | Some e =>
        if is_ErrNotFound e then Some ((false, None), w1)
        else Some ((true, Some e), w1)
    | None =>
        match elem with
        | None => None
        | Some el =>
            match Element_ScrollIntoView el (inner w1) w1 with
            | (None, _) => None
            | (Some (Some e), w2) => Some ((true, Some e), w2)
            | (Some None, w2) =>
                let '(cerr, w3) := e_Click R (WebElement el) w2 in
                Some ((true, cerr), w3)
            end
        end
    end.

Definition Session_ClickDOM (x : Session) (inner : W -> list (bool * Z))
  (xpath : string) (rt : list (bool * Z)) (w : W)
  : option (option error) * W :=
  waitOn_loop_p (r_Stack R)
    (ClickDOM_probe (r_FindElement R (WebDriver x)) x inner xpath)
    (selects (arm (timeout x)) rt) w.

Definition Element_ClickDOM (e : Element) (inner : W -> list (bool * Z))
  (xpath : string) (rt : list (bool * Z)) (w : W)
  : option (option error) * W :=
  waitOn_loop_p (r_Stack R)
    (ClickDOM_probe (e_FindElement R (WebElement e)) (s e) inner xpath)
    (selects (arm (timeout (s e))) rt) w.

End Finders.

(** The remote end [R] in a world that also counts the clicks made. *)
Definition counting_clicks {W} (R : @remote W) : @remote (W * nat) :=
  {| r_Status := fun wd '(w, c) =>
       let '(a, w') := r_Status R wd w in (a, (w', c));
     r_FindElement := fun wd xpath '(w, c) =>
       let '(a, w') := r_FindElement R wd xpath w in (a, (w', c));
     r_FindElements := fun wd xpath '(w, c) =>
       let '(a, w') := r_FindElements R wd xpath w in (a, (w', c));
     e_FindElement := fun we xpath '(w, c) =>
       let '(a, w') := e_FindElement R we xpath w in (a, (w', c));
     e_FindElements := fun we xpath '(w, c) =>
       let '(a, w') := e_FindElements R we xpath w in (a, (w', c));
     r_ExecuteScript := fun wd script args '(w, c) =>
       let '(a, w') := r_ExecuteScript R wd script args w in (a, (w', c));
     e_IsDisplayed := fun we '(w, c) =>
       let '(a, w') := e_IsDisplayed R we w in (a, (w', c));
     e_Click := fun we '(w, c) =>
       let '(a, w') := e_Click R we w in (a, (w', S c));
     r_Stack := r_Stack R |}.

(** ** Further vocabulary *)

(** The arguments [New] passes to the browser. *)
Definition chrome_args (profile : string) (w h : Z) (headless : bool)
  : list string :=
  ["window-size=" +:+ Itoa w +:+ "," +:+ Itoa h; "disable-notifications"]
  ++ (if headless then ["headless"] else [])
  ++ (if String.eqb profile "" then [] else ["user-data-dir=" +:+ profile]).

(** The address of the engine at port [p], to which [New] connects. *)
Definition hub_url (p : Z) : string :=
  "http://localhost:" +:+ Itoa p +:+ "/wd/hub".

(** The registered sessions are distinct objects, allocated before the
    next address to be handed out. *)
Definition registry_fresh (st : state) : Prop :=
  Forall (fun y => (self y < nextptr st)%nat) (sessions st)
  /\ NoDup (map self (sessions st)).

Definition is_Notify (e : event) : bool :=
  match e with EvNotify => true | _ => false end.

Definition is_NewRemote (e : event) : bool :=
  match e with EvNewRemote _ _ => true | _ => false end.

(** ** Further concrete worlds *)

(** The adopted engine with three sessions registered. *)
Definition three : state :=
  set_nextptr 4 (set_sessions [session 1; session 2; session 3] adopted).


(** An operation over a counter that asks to be retried, then meets a stale
    element, then succeeds. *)
Definition settles : nat -> option error * nat :=
  fun k =>
    (if (k <? 1)%nat then Some ErrNeedRetry
     else if (k <? 2)%nat
          then Some (Foreign "stale element reference: element is not attached")
          else None,
     S k).

(** A remote end over a counter of the calls made: nothing is found and
    nothing is displayed during the first two calls; from then on every
    path is element 7, or the elements 7, 8 and 9, and every element is
    displayed. *)
Definition shop : @remote nat :=
  {| r_Status := fun _ k => ((true, None), S k);
     r_FindElement := fun _ _ k =>
       (if (k <? 2)%nat then no_such_element else (Some 7%nat, None), S k);
     r_FindElements := fun _ _ k =>
       (if (k <? 2)%nat then ([], None) else ([7; 8; 9]%nat, None), S k);
     e_FindElement := fun _ _ k =>
       (if (k <? 2)%nat then no_such_element else (Some 7%nat, None), S k);
     e_FindElements := fun _ _ k =>
       (if (k <? 2)%nat then ([], None) else ([7; 8; 9]%nat, None), S k);
     r_ExecuteScript := fun _ _ _ k => (None, S k);
     e_IsDisplayed := fun _ k => (((2 <=? k)%nat, None), S k);
     e_Click := fun _ k => (None, S k);
     r_Stack := "goroutine 1 [running]" |}.

(** An element of session 1. *)
Definition item : Element := {| s := session 1; WebElement := 5 |}.

(** * Properties *)

(** ** Histories *)

Lemma emit_all_nil (st : state) : emit_all [] st = st.
Proof. destruct st; unfold emit_all; simpl. by rewrite app_nil_r. Qed.

Lemma emit_all_app (a b : list event) (st : state) :
  emit_all b (emit_all a st) = emit_all (a ++ b) st.
Proof. unfold emit_all; simpl. by rewrite app_assoc. Qed.

Lemma emit_all_emit (e : event) (a : list event) (st : state) :
  emit_all a (emit e st) = emit_all (e :: a) st.
Proof. unfold emit. by rewrite emit_all_app. Qed.

Arguments notFound : simpl never.
Arguments Itoa : simpl never.

Ltac run :=
  unfold mbind, M_bind, mret, M_ret, bind, ret, gets, modify, panic; simpl.

(** ** Session.Close *)

Lemma search_absent (x : Session) (l : list Session) (idx : Z) :
  Forall (fun y => same x y = false) l ->
  search x l idx = idx + Z.of_nat (length l).
Proof.
  intros Hl. revert idx.
  induction Hl as [|y l Hy _ IH]; intros idx; simpl.
  - lia.
  - rewrite Hy, IH. lia.
Qed.

Lemma assign_past_end {A} (l : list A) (i : Z) (x : A) :
  Z.of_nat (length l) <= i -> assign l i x = None.
Proof.
  intros Hi. unfold assign.
  destruct (Z.ltb_spec i (Z.of_nat (length l))); [lia|].
  by rewrite andb_false_r.
Qed.

(** A [Close] of a session that the registry does not hold panics, and
    panics with the mutex held. *)
Lemma Close_absent_panics (E : environ) (x : Session) (st : state) :
  smu st = false ->
  Forall (fun y => same x y = false) (sessions st) ->
  Session_Close E x st = Panic "index out of range" (set_smu true st).
Proof.
  intros Hmu Habs.
  unfold Session_Close. run. unfold Lock. rewrite Hmu. simpl.
  rewrite (search_absent _ _ _ Habs).
  destruct (index _ _) as [z|]; simpl; [|reflexivity].
  rewrite assign_past_end by lia. reflexivity.
Qed.

Lemma search_present (x : Session) (l : list Session) (idx : Z) :
  Exists (fun y => same x y = true) l ->
  idx <= search x l idx < idx + Z.of_nat (length l).
Proof.
  intros Hl. revert idx.
  induction l as [|y l IH]; intros idx; [by apply Exists_nil in Hl|].
  cbn [search length]. destruct (same x y) eqn:Hy; [lia|].
  apply Exists_cons in Hl as [Hl|Hl]; [congruence|].
  specialize (IH Hl (idx + 1)). lia.
Qed.

(** A [Close] of a session that the registry holds overwrites its first
    entry with the last one, drops the last one, and quits the session. *)
Lemma Close_present (E : environ) (x : Session) (st : state) :
  smu st = false ->
  Exists (fun y => same x y = true) (sessions st) ->
  exists last,
    index (sessions st) (Z.of_nat (length (sessions st)) - 1) = Some last
    /\ Session_Close E x st
       = Ret (wd_Quit E (hist st) (WebDriver x))
             (emit (EvQuit (WebDriver x))
                (set_sessions
                   (take (length (sessions st) - 1)
                      (<[Z.to_nat (search x (sessions st) 0) := last]>
                         (sessions st))) st)).
Proof.
  intros Hmu Hin.
  assert (Hidx := search_present x (sessions st) 0 Hin).
  destruct (sessions st) as [|y l] eqn:Hs; [by apply Exists_nil in Hin|].
  rewrite <- Hs in *.
  assert (Hlen : (0 < length (sessions st))%nat) by (rewrite Hs; cbn; lia).
  destruct (lookup_lt_is_Some_2 (sessions st) (length (sessions st) - 1))
    as [last Hlast]; [lia|].
  exists last.
  assert (Hget : index (sessions st) (Z.of_nat (length (sessions st)) - 1)
                 = Some last).
  { unfold index.
    destruct (Z.leb_spec 0 (Z.of_nat (length (sessions st)) - 1)); [|lia].
    destruct (Z.ltb_spec (Z.of_nat (length (sessions st)) - 1)
                (Z.of_nat (length (sessions st)))); [|lia].
    cbn [andb]. rewrite <- Hlast. f_equal. lia. }
  split; [exact Hget|].
  unfold Session_Close, Lock, Unlock, Quit, mbind, M_bind, bind, gets, modify,
    checked, mret, M_ret, ret.
  rewrite Hmu. cbn [sessions set_smu]. rewrite Hget.
  unfold assign.
  destruct (Z.leb_spec 0 (search x (sessions st) 0)); [|lia].
  destruct (Z.ltb_spec (search x (sessions st) 0)
              (Z.of_nat (length (sessions st)))); [|lia].
  cbn [andb]. unfold upto. rewrite length_insert.
  destruct (Z.leb_spec 0 (Z.of_nat (length (sessions st)) - 1)); [|lia].
  destruct (Z.leb_spec (Z.of_nat (length (sessions st)) - 1)
              (Z.of_nat (length (sessions st)))); [|lia].
  cbn [andb smu set_sessions set_smu hist].
  replace (Z.to_nat (Z.of_nat (length (sessions st)) - 1))
    with (length (sessions st) - 1)%nat by lia.
  unfold emit, emit_all, set_sessions. cbn. by rewrite Hmu.
Qed.

(** ** newChromeDriver *)

Section Supervisor.

Variable E : environ.

Lemma status_code_OK (r : http_result) :
  (status_code r =? StatusOK) = recognized r.
Proof.
  destruct r as [e|c]; simpl; [reflexivity|].
  unfold StatusForbidden, StatusBadRequest, StatusOK.
  destruct (Z.eqb_spec c 403), (Z.eqb_spec c 400), (Z.eqb_spec c 200);
    simpl; try reflexivity; try lia.
Qed.

Lemma status_run (a : string) (st : state) :
  status E a st
  = Ret (status_code (http_Get E (hist st) (a +:+ "/status")))
        (emit (EvGet (a +:+ "/status")) st).
Proof. reflexivity. Qed.

Lemma poll_step (n : nat) (dr : driver) (st : state) :
  poll E (S n) dr st
  = let st1 := emit (EvSleep Second) st in
    let url := addr dr +:+ "/status" in
    if recognized (http_Get E (hist st1) url)
    then Ret (Some dr, true, None) (emit (EvGet url) st1)
    else poll E n dr (emit (EvGet url) st1).
Proof.
  cbn [poll]. unfold mbind, M_bind, bind, Sleep, modify.
  rewrite status_run, status_code_OK.
  cbv zeta. destruct (recognized _); reflexivity.
Qed.



(** Whatever the world answers, the loop returns: either the driver it
    was given, as owned and without an error, or no driver and an error. *)
Lemma poll_returns (n : nat) (dr : driver) (st : state) :
  exists r evs,
    poll E n dr st = Ret r (emit_all evs st)
    /\ (r = (Some dr, true, None) \/ exists e, r = (None, false, Some e)).
Proof.
  revert st. induction n as [|n IH]; intros st.
  - eexists _, []. rewrite emit_all_nil. split; [reflexivity|].
    right. by eexists.
  - rewrite poll_step. cbv zeta.
    destruct (recognized _).
    + eexists _, _. unfold emit. rewrite emit_all_app.
      split; [reflexivity|]. by left.
    + destruct (IH (emit (EvGet (addr dr +:+ "/status"))
                         (emit (EvSleep Second) st))) as (r & evs & Hr & Hd).
      exists r. eexists. rewrite Hr. unfold emit. rewrite !emit_all_app.
      split; [reflexivity|]. exact Hd.
Qed.

Lemma newChromeDriver_run (path : string) (p : Z) (st : state) :
  newChromeDriver E path p st
  = let dr := chromeDriver path p (debugFlag st) in
    let url := addr dr +:+ "/status" in
    if recognized (http_Get E (hist st) url)
    then Ret (Some dr, false, None) (emit_all [EvGet url] st)
    else
      match cmd_Start E (hist st ++ [EvGet url; starting]) (cmd dr) with
      | Some e =>
          Ret (None, false, Some e)
              (emit_all [EvGet url; starting; EvStart (cmd dr)] st)
      | None =>
          poll E 30 (with_cmd (started (cmd dr)) dr)
               (emit_all [EvGet url; starting; EvStart (cmd dr)] st)
      end.
Proof.
  unfold newChromeDriver.
  unfold mbind at 1. unfold M_bind, bind, gets.
  unfold mbind at 1. unfold M_bind, bind.
  rewrite status_run, status_code_OK. cbv zeta.
  destruct (recognized _); [reflexivity|].
  unfold mbind, M_bind, bind, Printf, modify, Start, mret, M_ret, ret.
  unfold emit. rewrite !emit_all_app.
  change (hist (emit_all _ st)) with
    (hist st ++ [EvGet (addr (chromeDriver path p (debugFlag st)) +:+ "/status");
                 starting]).
  destruct (cmd_Start _ _ _); reflexivity.
Qed.

(** [newChromeDriver] always returns and only makes calls to the outside
    world, the first of them the status probe; it returns either a driver
    built by [chromeDriver] (with its command possibly started) and no
    error, or no driver and an error. *)
Lemma newChromeDriver_returns (path : string) (p : Z) (st : state) :
  exists r evs,
    newChromeDriver E path p st
    = Ret r (emit_all (EvGet (status_url p) :: evs) st)
    /\ ((exists c owned,
           r = (Some (with_cmd c (chromeDriver path p (debugFlag st))),
                owned, None))
        \/ exists e, r = (None, false, Some e)).
Proof.
  rewrite newChromeDriver_run. cbv zeta.
  change (addr (chromeDriver path p (debugFlag st)) +:+ "/status")
    with (status_url p).
  destruct (recognized _).
  - eexists _, []. split; [reflexivity|]. left.
    by exists (cmd (chromeDriver path p (debugFlag st))), false.
  - destruct (cmd_Start _ _ _) as [e|].
    + eexists _, _. split; [reflexivity|]. right. by eexists.
    + match goal with |- context [poll E 30 ?dr ?s] =>
        destruct (poll_returns 30 dr s) as (r & evs & Hr & Hd) end.
      exists r. eexists. rewrite Hr, emit_all_app.
      split; [reflexivity|].
      destruct Hd as [->|Hd]; [left|by right]. by eexists _, _.
Qed.


End Supervisor.

(** ** Stop, Init and Shutdown *)

Section Registry.

Variable E : environ.

Lemma locked_run {A} (body : M A) (st st2 : state) (a : A) :
  smu st = false ->
  body (set_smu true st) = Ret a st2 ->
  smu st2 = true ->
  locked body st = Ret a (set_smu false st2).
Proof.
  intros Hmu Hbody Hheld.
  unfold locked, Lock. rewrite Hmu, Hbody.
  unfold bind, Unlock. rewrite Hheld. reflexivity.
Qed.

Lemma Stop_graceful (dr : driver) (st : state) :
  shutdownURLPath dr = "/shutdown" ->
  exists r evs,
    Stop E (Some dr) st
    = Ret r (emit_all (EvGet (addr dr +:+ "/shutdown") :: evs) st)
    /\ (evs = [] \/ evs = [EvCmdWait]).
Proof.
  intros Hpath. unfold Stop. rewrite Hpath.
  change (String.eqb "/shutdown" "") with false. cbv iota.
  unfold mbind, M_bind, bind, Get, mret, M_ret, ret.
  destruct (http_Get E (hist st) _) as [e|c].
  - eexists _, []. split; [reflexivity|]. by left.
  - unfold cmd_Wait_. unfold emit. rewrite emit_all_app.
    destruct (cmd_Wait E _) as [e|].
    + destruct (negb _); eexists _, _; (split; [reflexivity|]); by right.
    + eexists _, _; (split; [reflexivity|]); by right.
Qed.

Lemma quit_all_run (l : list Session) (st : state) :
  quit_all E l st = Ret tt (emit_all (quit_events E l) st).
Proof.
  revert st. induction l as [|x l IH]; intros st.
  - cbn. by rewrite emit_all_nil.
  - cbn [quit_all]. unfold mbind, M_bind, bind, Printf, modify, Quit.
    rewrite IH. unfold emit, SessionID. rewrite !emit_all_app. reflexivity.
Qed.

(** [Shutdown] in full: the state it returns and the calls it makes after
    closing the sessions. *)
Lemma Shutdown_run (st : state) :
  smu st = false ->
  registry_ok st ->
  exists stopping,
    Shutdown E st
    = Ret tt {| inst := marker_after (inst st); sessions := [];
                debugFlag := debugFlag st; smu := false;
                nextptr := nextptr st;
                hist := hist st ++ quit_events E (sessions st) ++ stopping |}
    /\ match inst st with
       | Some sv =>
           if ownDriver sv
           then exists dr evs,
                  d sv = Some dr
                  /\ stopping = [stopping_notice;
                                 EvGet (addr dr +:+ "/shutdown")]
                                ++ evs ++ [complete_notice]
                  /\ (evs = [] \/ evs = [EvCmdWait])
           else stopping = [leave_alone_notice; complete_notice]
       | None => stopping = [leave_alone_notice; complete_notice]
       end.
Proof.
  intros Hmu Hok. unfold Shutdown, locked, Lock. rewrite Hmu.
  unfold mbind at 1. unfold M_bind, bind, gets.
  unfold mbind at 1. unfold M_bind, bind.
  rewrite quit_all_run.
  unfold mbind at 1. unfold M_bind, bind, modify.
  unfold mbind at 1. unfold M_bind, bind.
  unfold mbind at 1. unfold M_bind, bind.
  cbn [inst set_sessions emit_all set_smu sessions].
  destruct (inst st) as [sv|] eqn:Hinst; [destruct (ownDriver sv) eqn:Hown|].
  - destruct (Hok sv Hinst) as (dr & Hd & Hpath).
    unfold mbind at 1. unfold M_bind, bind, Printf, modify.
    unfold mbind at 1. unfold M_bind, bind.
    rewrite Hd.
    match goal with |- context [Stop E (Some dr) ?s] =>
      destruct (Stop_graceful dr s Hpath) as (r & evs & -> & Hevs) end.
    eexists. split.
    + unfold Unlock, emit, emit_all, set_inst, set_smu, ret. cbn.
      rewrite Hown, <- !app_assoc. reflexivity.
    + exists dr, evs. split; [done|]. split; [done|exact Hevs].
  - eexists. split.
    + unfold Printf, modify, Unlock, emit, emit_all, set_inst, set_smu, ret.
      cbn. rewrite Hown, Hinst, <- !app_assoc. reflexivity.
    + reflexivity.
  - eexists. split.
    + unfold Printf, modify, Unlock, emit, emit_all, set_inst, set_smu, ret.
      cbn. rewrite Hinst, <- !app_assoc. reflexivity.
    + reflexivity.
Qed.

Lemma Init_rejects (p : Z) (debug : bool) (st : state) :
  (TrimSpace E (Getenv E "CHROME_DRIVER") = "" ->
   Init E p debug st = Ret (Some (Errorf "env CHROME_DRIVER is missing")) st)
  /\ (TrimSpace E (Getenv E "CHROME_DRIVER") <> "" -> p < 1000 ->
      Init E p debug st
      = Ret (Some (Errorf ("driver port < 1000: " +:+ Itoa p))) st).
Proof.
  unfold Init. split.
  - intros ->. reflexivity.
  - intros Hpath Hp.
    destruct (String.eqb_spec (TrimSpace E (Getenv E "CHROME_DRIVER")) "");
      [done|].
    destruct (Z.ltb_spec p 1000); [reflexivity|lia].
Qed.

(** The first lines of [Init] when its arguments are accepted. *)
Ltac init_prefix p Hpath Hp :=
  unfold Init;
  destruct (String.eqb_spec (TrimSpace E (Getenv E "CHROME_DRIVER")) "")
    as [Hempty|_]; [exfalso; exact (Hpath Hempty)|];
  destruct (Z.ltb_spec p 1000) as [Hlow|_]; [exfalso; lia|].

Lemma Init_active (p : Z) (debug : bool) (st : state) :
  TrimSpace E (Getenv E "CHROME_DRIVER") <> "" ->
  1000 <= p ->
  smu st = false ->
  inst st <> None ->
  Init E p debug st = Ret None (emit_all (detection E (hist st)) st).
Proof.
  intros Hpath Hp Hmu Hinst. init_prefix p Hpath Hp.
  unfold detection, locked, Lock, Unlock, mbind, M_bind, bind, Pgrep, gets.
  destruct (0 <? _);
    unfold Printf, modify, mret, M_ret, ret, emit, emit_all, set_smu;
    cbn [smu inst hist sessions debugFlag nextptr]; rewrite Hmu;
    (destruct (inst st); [|done]); cbn [smu];
    rewrite <- ?app_assoc; reflexivity.
Qed.

Lemma Init_fresh (p : Z) (debug : bool) (st : state) :
  TrimSpace E (Getenv E "CHROME_DRIVER") <> "" ->
  1000 <= p ->
  smu st = false ->
  inst st = None ->
  exists r evs st',
    Init E p debug st = Ret r st'
    /\ hist st' = hist st ++ detection E (hist st)
                          ++ EvGet (status_url p) :: evs
    /\ smu st' = false
    /\ sessions st' = sessions st
    /\ registry_ok st'
    /\ (r = None <-> inst st' <> None).
Proof.
  intros Hpath Hp Hmu Hinst. init_prefix p Hpath Hp.
  unfold detection, locked, Lock, Unlock, mbind, M_bind, bind, Pgrep, gets,
    SetDebug, Notify.
  destruct (0 <? _);
    unfold Printf, modify, mret, M_ret, ret, emit, emit_all, set_smu,
      set_debugFlag;
    cbn [smu inst hist sessions debugFlag nextptr]; rewrite Hmu, Hinst;
    cbn [smu inst hist sessions debugFlag nextptr];
    (match goal with |- context [newChromeDriver E ?a ?b ?s1] =>
       destruct (newChromeDriver_returns E a b s1) as (r & evs & Hr & Hd);
       rewrite Hr end);
    (destruct Hd as [(c & owned & ->)|(e & ->)];
     [ exists None, (evs ++ [EvNotify])
     | exists (Some e), evs ]);
    eexists; (split; [reflexivity|]);
    cbn [hist emit_all set_inst smu sessions inst];
    rewrite <- ?app_assoc; (repeat split; try done);
    intros sv Hsv; cbn in Hsv; try congruence;
    injection Hsv as <-; eexists; split; reflexivity.
Qed.

Lemma registry_ok_emit_all (evs : list event) (st : state) :
  registry_ok st -> registry_ok (emit_all evs st).
Proof. intros Hok sv Hsv. exact (Hok sv Hsv). Qed.

(** [registry_ok] is an invariant of [Init]. *)
Lemma Init_keeps_registry_ok (p : Z) (debug : bool) (st : state) :
  smu st = false ->
  registry_ok st ->
  exists r st', Init E p debug st = Ret r st' /\ registry_ok st'
                /\ smu st' = false.
Proof.
  intros Hmu Hok.
  destruct (String.eqb_spec (TrimSpace E (Getenv E "CHROME_DRIVER")) "")
    as [Hempty|Hpath].
  { eexists _, _.
    split; [apply (proj1 (Init_rejects p debug st)), Hempty|]. done. }
  destruct (Z.lt_ge_cases p 1000) as [Hlow|Hp].
  { eexists _, _.
    split; [by apply (proj2 (Init_rejects p debug st))|]. done. }
  destruct (inst st) as [sv|] eqn:Hinst.
  - eexists _, _. split; [apply Init_active; try done; congruence|].
    split; [by apply registry_ok_emit_all|done].
  - destruct (Init_fresh p debug st Hpath Hp Hmu Hinst)
      as (r & evs & st' & Hr & _ & Hmu' & _ & Hok' & _).
    by eexists _, _.
Qed.

Lemma quits_quit_events (l : list Session) :
  quits (quit_events E l) = map WebDriver l.
Proof. induction l as [|x l IH]; [done|]. cbn. by rewrite <- IH. Qed.

Lemma quit_events_no_stop (l : list Session) :
  forallb (fun e => negb (is_stop e)) (quit_events E l) = true.
Proof. induction l as [|x l IH]; [done|]. cbn. exact IH. Qed.

(** C5. [Shutdown] quits every registered session, in registry order and
    whatever each [Quit] answers, and every one of these calls comes before
    the calls that stop the engine; the engine is stopped (first by a request
    to its shutdown address) only when the process is owned, and for an
    adopted process, or when no supervisor is recorded, no stopping call is
    made at all. *)
Theorem Shutdown_closes_sessions_before_stop (st : state) :
  smu st = false ->
  registry_ok st ->
  exists stopping st',
    Shutdown E st = Ret tt st'
    /\ hist st' = hist st ++ quit_events E (sessions st) ++ stopping
    /\ quits (quit_events E (sessions st)) = map WebDriver (sessions st)
    /\ forallb (fun e => negb (is_stop e)) (quit_events E (sessions st)) = true
    /\ forallb (fun e => negb (is_Quit e)) stopping = true
    /\ sessions st' = []
    /\ match inst st with
       | Some sv =>
           if ownDriver sv
           then exists dr rest,
                  d sv = Some dr
                  /\ stopping = stopping_notice
                                :: EvGet (addr dr +:+ "/shutdown") :: rest
           else forallb (fun e => negb (is_stop e)) stopping = true
       | None => forallb (fun e => negb (is_stop e)) stopping = true
       end.
Proof.
  intros Hmu Hok.
  destruct (Shutdown_run st Hmu Hok) as (stopping & Hrun & Hstop).
  exists stopping. eexists. split; [exact Hrun|].
  split; [reflexivity|]. split; [apply quits_quit_events|].
  split; [apply quit_events_no_stop|].
  destruct (inst st) as [sv|]; [destruct (ownDriver sv)|].
  - destruct Hstop as (dr & evs & Hd & -> & Hevs).
    repeat split.
    + destruct Hevs as [->| ->]; reflexivity.
    + by exists dr, (evs ++ [complete_notice]).
  - subst stopping. repeat split.
  - subst stopping. repeat split.
Qed.

(** C2 as amended. [Shutdown] clears the session collection and returns;
    it clears the supervisor marker when the process was owned (or when
    there was none), after which an [Init] with accepted arguments probes
    the engine afresh; when the process was adopted the marker stays as it
    was, and such an [Init] returns success without probing. *)
Theorem Shutdown_clears_marker_of_owned (st : state) :
  smu st = false ->
  registry_ok st ->
  exists st',
    Shutdown E st = Ret tt st'
    /\ sessions st' = []
    /\ smu st' = false
    /\ inst st' = marker_after (inst st)
    /\ forall p debug,
         TrimSpace E (Getenv E "CHROME_DRIVER") <> "" ->
         1000 <= p ->
         match inst st with
         | Some sv =>
             if ownDriver sv
             then exists r evs st'',
                    Init E p debug st' = Ret r st''
                    /\ hist st'' = hist st' ++ detection E (hist st')
                                            ++ EvGet (status_url p) :: evs
             else inst st' = Some sv
                  /\ Init E p debug st'
                     = Ret None (emit_all (detection E (hist st')) st')
         | None =>
             exists r evs st'',
               Init E p debug st' = Ret r st''
               /\ hist st'' = hist st' ++ detection E (hist st')
                                       ++ EvGet (status_url p) :: evs
         end.
Proof.
  intros Hmu Hok.
  destruct (Shutdown_run st Hmu Hok) as (stopping & Hrun & _).
  eexists. split; [exact Hrun|]. cbn [sessions smu inst].
  repeat split.
  intros p debug Hpath Hp.
  destruct (inst st) as [sv|] eqn:Hinst; [destruct (ownDriver sv) eqn:Hown|].
  - edestruct Init_fresh as (r & evs & st'' & Hr & Hh & _);
      [exact Hpath|exact Hp| | |]; cycle 2.
    + exists r, evs, st''. split; [exact Hr|exact Hh].
    + reflexivity.
    + cbn. by rewrite Hown.
  - split; [cbn; by rewrite Hown|].
    apply Init_active; try done. cbn. by rewrite Hown.
  - edestruct Init_fresh as (r & evs & st'' & Hr & Hh & _);
      [exact Hpath|exact Hp| | |]; cycle 2.
    + exists r, evs, st''. split; [exact Hr|exact Hh].
    + reflexivity.
    + reflexivity.
Qed.

(** C3 as amended. While a supervisor is recorded, an [Init] whose
    arguments are accepted (the [CHROME_DRIVER] setting is not blank and the
    port is at least 1000) returns success, leaves the registry and the debug
    flag as they were, and makes no call that probes, spawns or adopts an
    engine: its only calls are the [pgrep] detection and its notice. An
    [Init] whose arguments are rejected returns the validation error and
    makes no call at all. *)
Theorem Init_again_is_noop (p : Z) (debug : bool) (st : state) :
  inst st <> None ->
  smu st = false ->
  (TrimSpace E (Getenv E "CHROME_DRIVER") <> "" -> 1000 <= p ->
   exists st',
     Init E p debug st = Ret None st'
     /\ inst st' = inst st /\ sessions st' = sessions st
     /\ debugFlag st' = debugFlag st /\ smu st' = false
     /\ hist st' = hist st ++ detection E (hist st)
     /\ forallb (fun e => negb (is_acquire e)) (detection E (hist st)) = true)
  /\ (TrimSpace E (Getenv E "CHROME_DRIVER") = "" \/ p < 1000 ->
      exists e, Init E p debug st = Ret (Some e) st).
Proof.
  intros Hinst Hmu. split.
  - intros Hpath Hp. eexists. split; [by apply Init_active|].
    cbn [inst sessions debugFlag smu hist emit_all].
    repeat split; try done.
    unfold detection. by destruct (0 <? _).
  - intros Hbad.
    destruct (String.eqb_spec (TrimSpace E (Getenv E "CHROME_DRIVER")) "")
      as [Hempty|Hpath].
    + eexists. by apply (proj1 (Init_rejects p debug st)).
    + destruct Hbad as [Hempty|Hlow]; [done|].
      eexists. by apply (proj2 (Init_rejects p debug st)).
Qed.

(** C10. A driver that [newChromeDriver] returns has the shutdown path
    ["/shutdown"], so [Stop] on it returns after a request to
    [<addr>/shutdown] (followed at most by the wait for the process) and
    never kills the process directly. *)
Theorem newChromeDriver_stop_is_graceful (path : string) (p : Z)
  (st st' : state) (dr : driver) (owned : bool) (err : option error) :
  newChromeDriver E path p st = Ret (Some dr, owned, err) st' ->
  shutdownURLPath dr = "/shutdown"
  /\ forall s0, exists res evs,
       Stop E (Some dr) s0
       = Ret res (emit_all (EvGet (addr dr +:+ "/shutdown") :: evs) s0)
       /\ forallb (fun e => negb (is_Kill e)) evs = true.
Proof.
  intros Hrun.
  assert (Hpath : shutdownURLPath dr = "/shutdown").
  { destruct (newChromeDriver_returns E path p st) as (r & evs & Hr & Hd).
    rewrite Hr in Hrun. injection Hrun as -> _.
    destruct Hd as [(c & o & [= -> _ _])|(e & [=])]. reflexivity. }
  split; [exact Hpath|].
  intros s0. destruct (Stop_graceful dr s0 Hpath) as (res & evs & Hs & Hevs).
  exists res, evs. split; [exact Hs|].
  destruct Hevs as [->| ->]; reflexivity.
Qed.

End Registry.

(** ** The poll engine *)

Section PollEngine.

Context {St : Type}.
Variable stack : string.
Variable fn : @probe St.

Lemma after_S (n : nat) (st : St) :
  after fn (S n) st = after fn n (fn st).2.
Proof. unfold after. by rewrite Nat.iter_succ_r. Qed.

Lemma waits_S (n : nat) (st : St) :
  waits fn (S n) st -> (fn st).1 = (false, None) /\ waits fn n (fn st).2.
Proof.
  intros Hw. split.
  - exact (Hw 0%nat ltac:(lia)).
  - intros i Hi. rewrite <- after_S. apply Hw. lia.
Qed.

(** While the probe answers [(false, nil)] the loop goes on to the next
    reception. *)
Lemma waitOn_loop_skip (n : nat) (rest : list chan) (st : St) :
  waits fn n st ->
  waitOn_loop stack fn (replicate n ticker_C ++ rest) st
  = waitOn_loop stack fn rest (after fn n st).
Proof.
  revert st. induction n as [|n IH]; intros st Hw; [done|].
  apply waits_S in Hw as [H0 Hw].
  cbn [replicate app waitOn_loop].
  destruct (fn st) as [[done err] st1] eqn:Hfn.
  cbn in H0. injection H0 as -> ->.
  rewrite IH by exact Hw. by rewrite after_S, Hfn.
Qed.


(** Counting the invocations does not change what the loop does. *)
Lemma counted_erase (sel : list chan) (st : St) (c : nat) :
  exists c',
    waitOn_loop stack (counted fn) sel (st, c)
    = ((waitOn_loop stack fn sel st).1, ((waitOn_loop stack fn sel st).2, c')).
Proof.
  revert st c. induction sel as [|[|] sel IH]; intros st c.
  - by exists c.
  - cbn [waitOn_loop]. unfold counted at 1.
    destruct (fn st) as [[done [e|]] st1]; [by eexists|].
    destruct done; [by eexists|]. apply IH.
  - by exists c.
Qed.


End PollEngine.

(** *** Timers *)







(** ** Locating elements *)

Section Locating.

Variable E : environ.
Variable x : Session.

Lemma replicate_snoc {A} (n : nat) (a : A) :
  replicate n a ++ [a] = replicate (S n) a.
Proof. induction n as [|n IH]; [done|]. cbn. by rewrite IH. Qed.

(** One invocation of the probe of [GetDOMTimeout], by the answer of the
    remote end. *)
Lemma GetDOM_probe_run (xpath : string) (ret : option Element) (st : state) :
  let r := wd_FindElement E (hist st) (WebDriver x) xpath in
  let st' := emit (EvFindElement (WebDriver x) xpath) st in
  (no_match r = true ->
   GetDOM_probe E x xpath (ret, st) = ((false, None), (ret, st')))
  /\ (forall we, r = (Some we, None) ->
      GetDOM_probe E x xpath (ret, st)
      = ((true, None), (Some {| s := x; WebElement := we |}, st')))
  /\ (forall o e, r = (o, Some e) -> notFound (Some e) = false ->
      e <> ErrNotFound ->
      GetDOM_probe E x xpath (ret, st) = ((true, Some e), (ret, st'))).
Proof.
  intros r st'. unfold GetDOM_probe, Session_find, FindElement. fold r st'.
  split; [|split].
  - intros Hnm. destruct r as [[we|] [e|]]; cbn [no_match] in Hnm; try done.
    + destruct (notFound (Some e)); [done|]. cbn in Hnm. by rewrite Hnm.
    + destruct (notFound (Some e)); [done|]. cbn in Hnm. by rewrite Hnm.
  - by intros we ->.
  - intros o e -> Hnf Hne. rewrite Hnf. by destruct e.
Qed.

(** While the path matches nothing the probe of [GetDOMTimeout] keeps
    waiting, and each invocation makes one [FindElement] call. *)
Lemma GetDOM_probe_waits (xpath : string) (ret : option Element)
  (st : state) (n : nat) :
  let ev := EvFindElement (WebDriver x) xpath in
  (forall i, (i < n)%nat ->
     no_match (wd_FindElement E (hist st ++ replicate i ev) (WebDriver x) xpath)
     = true) ->
  after (GetDOM_probe E x xpath) n (ret, st)
  = (ret, emit_all (replicate n ev) st)
  /\ waits (GetDOM_probe E x xpath) n (ret, st).
Proof.
  intros ev. induction n as [|n IH]; intros Hnm.
  - split; [by rewrite emit_all_nil|]. intros i Hi. lia.
  - destruct IH as [Hafter Hwaits]; [intros i Hi; apply Hnm; lia|].
    assert (Hstep : GetDOM_probe E x xpath (ret, emit_all (replicate n ev) st)
                    = ((false, None),
                       (ret, emit_all (replicate (S n) ev) st))).
    { rewrite (proj1 (GetDOM_probe_run xpath ret _)).
      - unfold emit. by rewrite emit_all_app, replicate_snoc.
      - apply Hnm. lia. }
    split.
    + change (after (GetDOM_probe E x xpath) (S n) (ret, st))
        with ((GetDOM_probe E x xpath
                 (after (GetDOM_probe E x xpath) n (ret, st))).2).
      by rewrite Hafter, Hstep.
    + intros i Hi. destruct (decide (i = n)) as [->|Hne].
      * by rewrite Hafter, Hstep.
      * apply Hwaits. lia.
Qed.


(** C6 as amended. Let the path match nothing on the first [n] ticks. If the
    deadline is received next, [GetDOM] returns no element and the error
    [ErrWaitTimeout] wrapped with the stack — not [ErrNotFound]. If a tick
    is received next and the path then matches an element, [GetDOM] returns
    that element and a nil error; if the remote end then answers with an
    error other than not-found, [GetDOM] returns no element and that very
    error. *)
Theorem GetDOM_outcomes (xpath : string) (rt : list (bool * Z))
  (st : state) (n : nat) :
  let ev := EvFindElement (WebDriver x) xpath in
  let answer i :=
    wd_FindElement E (hist st ++ replicate i ev) (WebDriver x) xpath in
  (forall i, (i < n)%nat -> no_match (answer i) = true) ->
  (selects (arm (timeout x)) rt = replicate n ticker_C ++ [to_C] ->
   Session_GetDOM E x xpath rt st
   = (Some (None, Some (Wrapf ErrWaitTimeout (Stack E))),
      emit_all (replicate n ev) st)
   /\ Wrapf ErrWaitTimeout (Stack E) <> ErrNotFound
   /\ Cause (Wrapf ErrWaitTimeout (Stack E)) = ErrWaitTimeout)
  /\ (forall rest we,
        selects (arm (timeout x)) rt = replicate n ticker_C ++ ticker_C :: rest ->
        answer n = (Some we, None) ->
        Session_GetDOM E x xpath rt st
        = (Some (Some {| s := x; WebElement := we |}, None),
           emit_all (replicate (S n) ev) st))
  /\ (forall rest o e,
        selects (arm (timeout x)) rt = replicate n ticker_C ++ ticker_C :: rest ->
        answer n = (o, Some e) ->
        notFound (Some e) = false ->
        e <> ErrNotFound ->
        Session_GetDOM E x xpath rt st
        = (Some (None, Some e), emit_all (replicate (S n) ev) st)).
Proof.
  intros ev answer Hnm.
  destruct (GetDOM_probe_waits xpath None st n Hnm) as [Hafter Hwaits].
  unfold Session_GetDOM, Session_GetDOMTimeout, waitOn.
  split; [|split].
  - intros ->. rewrite waitOn_loop_skip, Hafter by exact Hwaits.
    by cbn [waitOn_loop].
  - intros rest we -> Hans.
    rewrite waitOn_loop_skip, Hafter by exact Hwaits. cbn [waitOn_loop].
    rewrite (proj1 (proj2 (GetDOM_probe_run xpath None _)) we) by exact Hans.
    unfold emit. by rewrite emit_all_app, replicate_snoc.
  - intros rest o e -> Hans Hnf Hne.
    rewrite waitOn_loop_skip, Hafter by exact Hwaits. cbn [waitOn_loop].
    rewrite (proj2 (proj2 (GetDOM_probe_run xpath None
               (emit_all (replicate n (EvFindElement (WebDriver x) xpath)) st)))
               o e Hans Hnf Hne).
    unfold emit. by rewrite emit_all_app, replicate_snoc.
Qed.

(** *** Session.Wait *)

(** [Session.find], by the answer of the remote end. *)
Lemma Session_find_run (xpath : string) (st : state) :
  let r := wd_FindElement E (hist st) (WebDriver x) xpath in
  let st' := emit (EvFindElement (WebDriver x) xpath) st in
  (no_match r = true ->
   Session_find E x xpath st = ((None, Some ErrNotFound), st'))
  /\ (forall we, r = (Some we, None) ->
      Session_find E x xpath st
      = ((Some {| s := x; WebElement := we |}, None), st'))
  /\ (forall o e, r = (o, Some e) -> notFound (Some e) = false ->
      e <> ErrNotFound ->
      Session_find E x xpath st = ((None, Some e), st')).
Proof.
  intros r st'. unfold Session_find, FindElement. fold r st'.
  split; [|split].
  - intros Hnm. destruct r as [[we|] [e|]]; cbn [no_match] in Hnm; try done.
    + destruct (notFound (Some e)); [done|]. cbn in Hnm. by destruct e.
    + destruct (notFound (Some e)); [done|]. cbn in Hnm. by destruct e.
  - by intros we ->.
  - intros o e -> Hnf Hne. by rewrite Hnf.
Qed.

Lemma quiet_cons (p0 : string) (xpaths : list string) (k : nat) (st : state) :
  quiet E x (p0 :: xpaths) (S k) st ->
  no_match (wd_FindElement E (hist st) (WebDriver x) p0) = true
  /\ quiet E x xpaths k (emit (EvFindElement (WebDriver x) p0) st).
Proof.
  intros Hq. split.
  - specialize (Hq 0%nat p0 ltac:(lia) eq_refl).
    cbn in Hq. by rewrite app_nil_r in Hq.
  - intros j p Hj Hp. specialize (Hq (S j) p ltac:(lia) Hp).
    cbn in Hq. cbn [hist emit emit_all]. by rewrite <- app_assoc.
Qed.

(** The loop of the probe skips the paths that match nothing. *)
Lemma Wait_scan_skip (xpaths : list string) (k : nat) (idx selected : Z)
  (st : state) :
  (k <= length xpaths)%nat ->
  quiet E x xpaths k st ->
  Wait_scan E x xpaths idx selected st
  = Wait_scan E x (drop k xpaths) (idx + Z.of_nat k) selected
      (emit_all (map (EvFindElement (WebDriver x)) (take k xpaths)) st).
Proof.
  revert k idx st. induction xpaths as [|p0 xpaths IH]; intros k idx st Hk Hq.
  - cbn in Hk. replace k with 0%nat by lia. cbn.
    by rewrite emit_all_nil.
  - destruct k as [|k].
    + cbn [drop take map]. by rewrite emit_all_nil, Z.add_0_r.
    + apply quiet_cons in Hq as [H0 Hq].
      cbn [Wait_scan drop take map].
      rewrite (proj1 (Session_find_run p0 st) H0). cbn [is_ErrNotFound].
      rewrite (IH k) by (cbn in Hk; first [lia|exact Hq]).
      rewrite emit_all_emit. f_equal. lia.
Qed.

Lemma quiet_cons_inv (p0 : string) (xpaths : list string) (k : nat)
  (st : state) :
  no_match (wd_FindElement E (hist st) (WebDriver x) p0) = true ->
  quiet E x xpaths k (emit (EvFindElement (WebDriver x) p0) st) ->
  quiet E x (p0 :: xpaths) (S k) st.
Proof.
  intros H0 Hq j p Hj Hp. destruct j as [|j].
  - cbn in Hp. injection Hp as <-. cbn. by rewrite app_nil_r.
  - specialize (Hq j p ltac:(lia) Hp).
    cbn [hist emit emit_all] in Hq. cbn. by rewrite <- app_assoc in Hq.
Qed.

(** An answer of the remote end is a miss, an element, or another error. *)
Lemma answer_cases (r : option nat * option error) :
  no_match r = true
  \/ (exists we, r = (Some we, None))
  \/ (exists o e, r = (o, Some e) /\ notFound (Some e) = false
                  /\ e <> ErrNotFound).
Proof.
  destruct r as [o [e|]].
  - destruct (notFound (Some e)) eqn:Hnf;
      [left; destruct o; cbn [no_match]; by rewrite Hnf|].
    destruct (is_ErrNotFound e) eqn:He;
      [left; destruct o; cbn [no_match]; by rewrite Hnf, He|].
    right; right. exists o, e. repeat split; [done|]. by intros ->.
  - destruct o as [we|]; [right; left; by eexists|by left].
Qed.

(** When the loop of the probe reports success, the index it selects is
    that of the first path, in list order, that matched. *)
Lemma Wait_scan_sound (xpaths : list string) (idx selected : Z) (st : state)
  (k' : Z) (st' : state) :
  Wait_scan E x xpaths idx selected st = ((true, None), (k', st')) ->
  exists (k : nat) pk we,
    k' = idx + Z.of_nat k
    /\ quiet E x xpaths k st
    /\ xpaths !! k = Some pk
    /\ wd_FindElement E
         (hist st ++ map (EvFindElement (WebDriver x)) (take k xpaths))
         (WebDriver x) pk = (Some we, None).
Proof.
  revert idx st. induction xpaths as [|p0 xpaths IH]; intros idx st; [done|].
  cbn [Wait_scan].
  destruct (answer_cases (wd_FindElement E (hist st) (WebDriver x) p0))
    as [Hnm|[(we & Hwe)|(o & e & He & Hnf & Hne)]].
  - rewrite (proj1 (Session_find_run p0 st) Hnm). cbn [is_ErrNotFound].
    intros Hscan. destruct (IH _ _ Hscan) as (k & pk & we & -> & Hq & Hk & Ha).
    exists (S k), pk, we. split; [lia|]. split; [by apply quiet_cons_inv|].
    split; [exact Hk|]. cbn [hist emit emit_all] in Ha.
    cbn. by rewrite <- app_assoc in Ha.
  - rewrite (proj1 (proj2 (Session_find_run p0 st)) we Hwe).
    intros [= <- <-]. exists 0%nat, p0, we.
    split; [lia|]. split; [intros j p Hj; lia|]. split; [done|].
    cbn. by rewrite app_nil_r.
  - rewrite (proj2 (proj2 (Session_find_run p0 st)) o e He Hnf Hne).
    by destruct e.
Qed.

(** A tick that keeps waiting leaves [selected] as it was. *)
Lemma Wait_scan_keeps (xpaths : list string) (idx selected : Z) (st : state) :
  (Wait_scan E x xpaths idx selected st).1 = (false, None) ->
  (Wait_scan E x xpaths idx selected st).2.1 = selected.
Proof.
  revert idx st. induction xpaths as [|p0 xpaths IH]; intros idx st; [done|].
  cbn [Wait_scan].
  destruct (Session_find E x p0 st) as [[result [e|]] st'].
  - destruct (is_ErrNotFound e); [apply IH|done].
  - destruct result; [done|apply IH].
Qed.

Lemma Wait_probe_keeps (xpaths : list string) (selected : Z) (st : state) :
  (Wait_probe E x xpaths (selected, st)).1 = (false, None) ->
  (Wait_probe E x xpaths (selected, st)).2.1 = selected.
Proof.
  unfold Wait_probe, Status.
  destruct (wd_Status E (hist st) (WebDriver x)) as [ready [e|]]; [done|].
  destruct ready; [apply Wait_scan_keeps|done].
Qed.

Lemma Wait_after (xpaths : list string) (n : nat) (selected : Z) (st : state) :
  waits (Wait_probe E x xpaths) n (selected, st) ->
  (after (Wait_probe E x xpaths) n (selected, st)).1 = selected.
Proof.
  induction n as [|n IH]; intros Hw; [done|].
  assert (Hn := Hw n ltac:(lia)).
  change (after (Wait_probe E x xpaths) (S n) (selected, st))
    with ((Wait_probe E x xpaths
             (after (Wait_probe E x xpaths) n (selected, st))).2).
  destruct (after (Wait_probe E x xpaths) n (selected, st)) as [sel s'] eqn:Ha.
  cbn [fst] in IH. rewrite <- (IH ltac:(intros i Hi; apply Hw; lia)).
  by apply Wait_probe_keeps.
Qed.

(** C8. Let the first [n] ticks of [Session.Wait] keep waiting, and let a
    further tick be received, at which the session is in state [st_n]. If
    the status query then fails, the wait is aborted with that error. If
    the engine is then not ready, the tick keeps waiting and tries no path.
    If the engine is ready, the paths before index [k] match nothing and
    the path at index [k] matches, the wait returns [k] with a nil error:
    the first path by list order that matches on that tick. Conversely,
    whenever that tick reports success, the engine was ready and the index
    returned is that of a path that matched after every path before it in
    the list had matched nothing. *)
Theorem Wait_first_by_list_order (xpaths : list string)
  (rt : list (bool * Z)) (st : state) (n : nat) (rest : list chan) :
  let pr := Wait_probe E x xpaths in
  let wd := WebDriver x in
  waits pr n (-1, st) ->
  selects (arm (timeout x)) rt = replicate n ticker_C ++ ticker_C :: rest ->
  let st_n := (after pr n (-1, st)).2 in
  let asked := emit (EvStatus wd) st_n in
  (forall ready e,
     wd_Status E (hist st_n) wd = (ready, Some e) ->
     Session_Wait E x xpaths rt st = (Some (-1, Some e), asked))
  /\ (wd_Status E (hist st_n) wd = (false, None) ->
      pr (-1, st_n) = ((false, None), (-1, asked)))
  /\ (forall k pk we,
        wd_Status E (hist st_n) wd = (true, None) ->
        quiet E x xpaths k asked ->
        xpaths !! k = Some pk ->
        wd_FindElement E
          (hist asked ++ map (EvFindElement wd) (take k xpaths)) wd pk
        = (Some we, None) ->
        Session_Wait E x xpaths rt st
        = (Some (Z.of_nat k, None),
           emit_all (map (EvFindElement wd) (take (S k) xpaths)) asked))
  /\ (forall k' st',
        pr (-1, st_n) = ((true, None), (k', st')) ->
        Session_Wait E x xpaths rt st = (Some (k', None), st')
        /\ exists (k : nat) pk we,
             k' = Z.of_nat k
             /\ wd_Status E (hist st_n) wd = (true, None)
             /\ quiet E x xpaths k asked
             /\ xpaths !! k = Some pk
             /\ wd_FindElement E
                  (hist asked ++ map (EvFindElement wd) (take k xpaths)) wd pk
                = (Some we, None)).
Proof.
  intros pr wd Hw Hsel st_n asked.
  assert (Hafter : after pr n (-1, st) = (-1, st_n)).
  { rewrite (surjective_pairing (after pr n (-1, st))).
    unfold pr. by rewrite Wait_after. }
  unfold Session_Wait, waitOn. rewrite Hsel. fold pr.
  rewrite waitOn_loop_skip, Hafter by exact Hw.
  cbn [waitOn_loop].
  assert (Hpr : pr (-1, st_n)
                = match wd_Status E (hist st_n) wd with
                  | (_, Some e) => ((true, Some e), (-1, asked))
                  | (ready, None) =>
                      if negb ready then ((false, None), (-1, asked))
                      else Wait_scan E x xpaths 0 (-1) asked
                  end) by reflexivity.
  split; [|split; [|split]]; cycle 3.
  { intros k' st' Hsucc. rewrite Hsucc. split; [reflexivity|].
    rewrite Hpr in Hsucc.
    destruct (wd_Status E (hist st_n) wd) as [ready [e|]]; [done|].
    destruct ready; [|done]. cbn [negb] in Hsucc.
    destruct (Wait_scan_sound _ _ _ _ _ _ Hsucc)
      as (k & pk & we & -> & Hq & Hk & Ha).
    exists k, pk, we. split; [lia|]. by repeat split. }
  all: rewrite Hpr.
  - by intros ready e ->.
  - by intros ->.
  - intros k pk we -> Hq Hk Hans.
    cbn [negb].
    assert (Hlen : (k < length xpaths)%nat) by by eapply lookup_lt_Some.
    rewrite (Wait_scan_skip xpaths k) by first [lia|exact Hq].
    rewrite (drop_S _ _ _ Hk). cbn [Wait_scan].
    rewrite (proj1 (proj2 (Session_find_run pk _)) we) by exact Hans.
    unfold emit. rewrite !emit_all_app.
    rewrite (take_S_r _ _ _ Hk), map_app. cbn [map].
    by rewrite Z.add_0_l.
Qed.

End Locating.

(** * Evaluations *)

(** ** Session.Close *)

(** C1. On a machine with an adopted engine, a session is opened and closed:
    the first [Close] empties the registry and quits the session. A second
    [Close] of the same session panics on the registry index, with the mutex
    still locked, so that a [Shutdown] after it blocks forever. The same
    panic meets a [Close] that comes after a [Shutdown] has emptied the
    registry. *)
Theorem Close_of_removed_session_panics :
  exists x st1 st2 st3,
    New (machine 0) "" 1920 1080 false (60 * Second) adopted
    = Ret (Some x, None) st1
    /\ sessions st1 = [x]
    /\ Session_Close (machine 0) x st1 = Ret None st2
    /\ sessions st2 = []
    /\ Session_Close (machine 0) x st2 = Panic "index out of range" st3
    /\ smu st3 = true
    /\ Shutdown (machine 0) st3 = Blocked st3
    /\ exists st4,
         Shutdown (machine 0) st1 = Ret tt st4
         /\ sessions st4 = []
         /\ Session_Close (machine 0) x st4
            = Panic "index out of range" (set_smu true st4).
Proof.
  do 4 eexists.
  split; [vm_compute; reflexivity|].
  split; [reflexivity|].
  split; [vm_compute; reflexivity|].
  split; [reflexivity|].
  split; [vm_compute; reflexivity|].
  split; [reflexivity|].
  split; [vm_compute; reflexivity|].
  eexists.
  split; [vm_compute; reflexivity|].
  split; [reflexivity|].
  vm_compute; reflexivity.
Qed.

(** ** Counterexamples *)

(** C2 as stated fails: after a [Shutdown] of an adopted engine the
    supervisor marker is still set, and the next [Init] returns success
    after its [pgrep] detection alone, without probing the engine. *)
Lemma Shutdown_keeps_marker_of_adopted :
  exists st',
    Shutdown (machine 0) adopted = Ret tt st'
    /\ inst st' <> None
    /\ inst st' = inst adopted
    /\ Init (machine 0) 9090 false st'
       = Ret None (emit (EvPgrep "chromedriver") st').
Proof.
  eexists. split; [vm_compute; reflexivity|].
  split; [discriminate|]. split; vm_compute; reflexivity.
Qed.

(** C3 as stated fails: with a supervisor recorded, an [Init] for port 80
    does not return success but the port error. *)
Lemma Init_again_rejects_low_port :
  inst adopted <> None
  /\ Init (machine 0) 80 false adopted
     = Ret (Some (Errorf "driver port < 1000: 80")) adopted.
Proof. split; [discriminate|]. vm_compute; reflexivity. Qed.

(** C6 as stated fails: on a page where the path matches nothing at any
    moment, [GetDOM] with a three-second timeout searches on three ticks and
    then fails with the wrapped [ErrWaitTimeout], which is not
    [ErrNotFound] and does not have it as its cause. *)
Lemma GetDOM_timeout_is_not_NotFound :
  (forall h, wd_FindElement (machine 0) h 1%nat "//div" = no_such_element)
  /\ exists err st',
       Session_GetDOM (machine 0) (session 1) "//div" five adopted
       = (Some (None, Some err), st')
       /\ err = Wrapf ErrWaitTimeout "goroutine 1 [running]"
       /\ err <> ErrNotFound
       /\ Cause err <> ErrNotFound
       /\ so_far is_Find (hist st') = 3%nat.
Proof.
  split; [reflexivity|]. do 2 eexists.
  split; [vm_compute; reflexivity|].
  split; [reflexivity|]. split; [discriminate|]. split; [discriminate|].
  reflexivity.
Qed.

(** ** Instances *)

(** The states used below satisfy [registry_ok]. *)
Lemma registry_ok_busy : registry_ok busy.
Proof.
  intros sv Hsv. vm_compute in Hsv. injection Hsv as <-.
  eexists. split; reflexivity.
Defined.

Lemma registry_ok_adopted : registry_ok adopted.
Proof.
  intros sv Hsv. vm_compute in Hsv. injection Hsv as <-.
  eexists. split; reflexivity.
Defined.

(** [Shutdown] of the spawned engine with two sessions open, the first of
    which fails to quit. *)
Lemma Shutdown_closes_sessions_before_stop_witness :
  smu busy = false
  /\ registry_ok busy
  /\ wd_Quit flaky (hist busy) 1%nat = Some (Foreign "invalid session id")
  /\ exists stopping st',
       Shutdown flaky busy = Ret tt st'
       /\ hist st' = hist busy ++ quit_events flaky (sessions busy) ++ stopping
       /\ quits (quit_events flaky (sessions busy)) = [1; 2]%nat
       /\ forallb (fun e => negb (is_Quit e)) stopping = true.
Proof.
  split; [reflexivity|]. split; [exact registry_ok_busy|].
  split; [reflexivity|].
  destruct (Shutdown_closes_sessions_before_stop flaky busy eq_refl
              registry_ok_busy)
    as (stopping & st' & Hrun & Hhist & Hquits & _ & Hstop & _).
  exists stopping, st'. repeat split; assumption.
Defined.

(** [Shutdown] of a spawned engine clears the marker; [Shutdown] of an
    adopted one keeps it. *)
Lemma Shutdown_clears_marker_of_owned_witness :
  smu busy = false
  /\ registry_ok busy
  /\ (exists st', Shutdown (machine 3) busy = Ret tt st' /\ inst st' = None)
  /\ smu adopted = false
  /\ registry_ok adopted
  /\ (exists st', Shutdown (machine 0) adopted = Ret tt st'
                  /\ inst st' = inst adopted).
Proof.
  split; [reflexivity|]. split; [exact registry_ok_busy|].
  split.
  { destruct (Shutdown_clears_marker_of_owned (machine 3) busy eq_refl
                registry_ok_busy) as (st' & Hrun & _ & _ & Hinst & _).
    exists st'. split; [exact Hrun|exact Hinst]. }
  split; [reflexivity|]. split; [exact registry_ok_adopted|].
  destruct (Shutdown_clears_marker_of_owned (machine 0) adopted eq_refl
              registry_ok_adopted) as (st' & Hrun & _ & _ & Hinst & _).
  exists st'. split; [exact Hrun|exact Hinst].
Defined.

(** A second [Init] on the machine with an adopted engine. *)
Lemma Init_again_is_noop_witness :
  inst adopted <> None
  /\ smu adopted = false
  /\ TrimSpace (machine 0) (Getenv (machine 0) "CHROME_DRIVER") <> ""
  /\ 1000 <= 9090
  /\ exists st',
       Init (machine 0) 9090 true adopted = Ret None st'
       /\ inst st' = inst adopted
       /\ debugFlag st' = debugFlag adopted
       /\ hist st' = hist adopted ++ detection (machine 0) (hist adopted).
Proof.
  assert (Hinst : inst adopted <> None) by discriminate.
  assert (Hpath : TrimSpace (machine 0) (Getenv (machine 0) "CHROME_DRIVER")
                  <> "") by discriminate.
  assert (Hport : 1000 <= 9090) by lia.
  split; [exact Hinst|]. split; [reflexivity|].
  split; [exact Hpath|]. split; [exact Hport|].
  destruct (proj1 (Init_again_is_noop (machine 0) 9090 true adopted
                     Hinst eq_refl) Hpath Hport)
    as (st' & Hrun & Hi & _ & Hd & _ & Hh & _).
  exists st'. repeat split; assumption.
Defined.

(** The driver of the spawned engine is stopped through its shutdown
    address. *)
Lemma newChromeDriver_stop_is_graceful_witness :
  newChromeDriver (machine 3) "/opt/chromedriver" 9090 initial
  = Ret (Some (with_cmd (started (cmd (chromeDriver "/opt/chromedriver" 9090
                                         false)))
                 (chromeDriver "/opt/chromedriver" 9090 false)),
         true, None)
        (emit_all ([EvGet (status_url 9090); starting;
                    EvStart (cmd (chromeDriver "/opt/chromedriver" 9090 false))]
                   ++ poll_events (status_url 9090) 3) initial)
  /\ exists res evs,
       Stop (machine 3)
         (Some (with_cmd (started (cmd (chromeDriver "/opt/chromedriver" 9090
                                          false)))
                  (chromeDriver "/opt/chromedriver" 9090 false))) spawned
       = Ret res (emit_all (EvGet "http://localhost:9090/wd/hub/shutdown"
                            :: evs) spawned)
       /\ forallb (fun e => negb (is_Kill e)) evs = true.
Proof.
  assert (Hrun : newChromeDriver (machine 3) "/opt/chromedriver" 9090 initial
    = Ret (Some (with_cmd (started (cmd (chromeDriver "/opt/chromedriver" 9090
                                           false)))
                   (chromeDriver "/opt/chromedriver" 9090 false)),
           true, None)
          (emit_all ([EvGet (status_url 9090); starting;
                      EvStart (cmd (chromeDriver "/opt/chromedriver" 9090
                                      false))]
                     ++ poll_events (status_url 9090) 3) initial))
    by (vm_compute; reflexivity).
  split; [exact Hrun|].
  exact (proj2 (newChromeDriver_stop_is_graceful (machine 3) _ _ _ _ _ _ _
                  Hrun) spawned).
Defined.




(** [GetDOM] with a three-second timeout: the path never matches; it
    matches on the third tick; the session is gone on the second tick. *)
Lemma GetDOM_outcomes_witness :
  Session_GetDOM (machine 0) (session 1) "//div" five adopted
  = (Some (None, Some (Wrapf ErrWaitTimeout (Stack (machine 0)))),
     emit_all (replicate 3 (EvFindElement 1 "//div")) adopted)
  /\ Session_GetDOM (world 0 None 0 2 page) (session 1) "//b" five adopted
     = (Some (Some {| s := session 1; WebElement := 7 |}, None),
        emit_all (replicate 3 (EvFindElement 1 "//b")) adopted)
  /\ Session_GetDOM (world 0 None 0 1 gone) (session 1) "//b" five adopted
     = (Some (None, Some (Foreign "invalid session id")),
        emit_all (replicate 2 (EvFindElement 1 "//b")) adopted).
Proof.
  split; [|split].
  - refine (proj1 (proj1 (GetDOM_outcomes (machine 0) (session 1) "//div" five
                            adopted 3 _) _)).
    + intros i Hi. reflexivity.
    + reflexivity.
  - refine (proj1 (proj2 (GetDOM_outcomes (world 0 None 0 2 page) (session 1)
                            "//b" five adopted 2 _)) [to_C] 7%nat _ _).
    + intros i Hi. destruct i as [|[|i]]; [reflexivity|reflexivity|lia].
    + reflexivity.
    + reflexivity.
  - refine (proj2 (proj2 (GetDOM_outcomes (world 0 None 0 1 gone) (session 1)
                            "//b" five adopted 1 _)) [ticker_C; to_C] None
                  (Foreign "invalid session id") _ _ _ _).
    + intros i Hi. destruct i as [|i]; [reflexivity|lia].
    + reflexivity.
    + reflexivity.
    + reflexivity.
    + discriminate.
Defined.

(** [Wait] for ["//a"] or ["//b"]: the engine is not ready on the first tick
    and ["//b"] matches on the second; and a status query that fails. *)
Lemma Wait_first_by_list_order_witness :
  waits (Wait_probe (world 0 None 1 0 page) (session 1) ["//a"; "//b"]) 1
    (-1, adopted)
  /\ Session_Wait (world 0 None 1 0 page) (session 1) ["//a"; "//b"] five
       adopted
     = (Some (1, None),
        emit_all [EvStatus 1; EvStatus 1; EvFindElement 1 "//a";
                  EvFindElement 1 "//b"] adopted)
  /\ Wait_probe (world 0 None 1 0 page) (session 1) ["//a"; "//b"]
       (-1, adopted)
     = ((false, None), (-1, emit (EvStatus 1) adopted))
  /\ Session_Wait unreachable (session 1) ["//a"; "//b"] five adopted
     = (Some (-1, Some (Foreign "connection reset")),
        emit (EvStatus 1) adopted).
Proof.
  assert (Hw : waits (Wait_probe (world 0 None 1 0 page) (session 1)
                        ["//a"; "//b"]) 1 (-1, adopted)).
  { intros i Hi. destruct i as [|i]; [reflexivity|lia]. }
  assert (H0 : forall E, waits (Wait_probe E (session 1) ["//a"; "//b"]) 0
                           (-1, adopted)).
  { intros E i Hi. lia. }
  split; [exact Hw|]. split; [|split].
  - apply (proj1 (proj2 (proj2 (Wait_first_by_list_order
                                  (world 0 None 1 0 page) (session 1)
                                  ["//a"; "//b"] five adopted 1
                                  [ticker_C; to_C] Hw eq_refl)))
                 1%nat "//b" 7%nat).
    + reflexivity.
    + intros j p Hj Hp. destruct j as [|j]; [|lia].
      injection Hp as <-. reflexivity.
    + reflexivity.
    + reflexivity.
  - apply (proj1 (proj2 (Wait_first_by_list_order (world 0 None 1 0 page)
                           (session 1) ["//a"; "//b"] five adopted 0
                           [ticker_C; ticker_C; to_C] (H0 _) eq_refl))).
    reflexivity.
  - apply (proj1 (Wait_first_by_list_order unreachable (session 1)
                    ["//a"; "//b"] five adopted 0 [ticker_C; ticker_C; to_C]
                    (H0 _) eq_refl) false).
    reflexivity.
Defined.

(** * Further properties *)

(** ** The registry *)

Lemma insert_swap_perm {A} (l : list A) (i : nat) (found y : A) :
  l !! i = Some found -> found :: <[i := y]> l ≡ₚ y :: l.
Proof.
  revert i. induction l as [|z l IH]; intros i Hi; [done|].
  destruct i as [|i]; cbn in *.
  - injection Hi as ->. apply perm_swap.
  - rewrite (perm_swap z found), (IH i Hi). apply perm_swap.
Qed.

Lemma swap_remove_perm {A} (l : list A) (i : nat) (found last : A) :
  l !! i = Some found ->
  l !! (length l - 1)%nat = Some last ->
  found :: take (length l - 1) (<[i := last]> l) ≡ₚ l.
Proof.
  intros Hi Hlast.
  destruct l as [|z l0] using rev_ind; [done|]. clear IHl0.
  rewrite length_app in *. cbn [length] in *.
  replace (length l0 + 1 - 1)%nat with (length l0) in * by lia.
  rewrite lookup_app_r in Hlast by lia.
  rewrite Nat.sub_diag in Hlast. injection Hlast as ->.
  destruct (decide (i = length l0)) as [->|Hne].
  - rewrite lookup_app_r in Hi by lia.
    rewrite Nat.sub_diag in Hi. injection Hi as ->.
    rewrite list_insert_id by (rewrite lookup_app_r by lia; by rewrite Nat.sub_diag).
    rewrite take_app_length. apply Permutation_cons_append.
  - assert (Hlt : (i < length l0)%nat).
    { apply lookup_lt_Some in Hi. rewrite length_app in Hi. cbn in Hi. lia. }
    rewrite lookup_app_l in Hi by exact Hlt.
    rewrite insert_app_l by exact Hlt.
    rewrite take_app_length' by (by rewrite length_insert).
    rewrite (insert_swap_perm _ _ _ _ Hi). apply Permutation_cons_append.
Qed.
Lemma search_spec (x : Session) (l : list Session) (idx : Z) :
  Exists (fun y => same x y = true) l ->
  exists (i : nat) found,
    search x l idx = idx + Z.of_nat i
    /\ l !! i = Some found
    /\ same x found = true.
Proof.
  intros Hl. revert idx.
  induction l as [|y l IH]; intros idx; [by apply Exists_nil in Hl|].
  cbn [search]. destruct (same x y) eqn:Hy.
  - exists 0%nat, y. split; [lia|done].
  - apply Exists_cons in Hl as [Hl|Hl]; [congruence|].
    destruct (IH Hl (idx + 1)) as (i & found & Hs & Hi & Hf).
    exists (S i), found. split; [lia|done].
Qed.

Lemma index_lookup {A} (l : list A) (i : Z) (a : A) :
  index l i = Some a -> l !! Z.to_nat i = Some a.
Proof. unfold index. by destruct (_ && _). Qed.

Section RegistryMore.

Variable E : environ.

Lemma Close_removes_present (x : Session) (st : state) :
  smu st = false ->
  Exists (fun y => same x y = true) (sessions st) ->
  exists found st',
    Session_Close E x st = Ret (wd_Quit E (hist st) (WebDriver x)) st'
    /\ same x found = true
    /\ found :: sessions st' ≡ₚ sessions st
    /\ smu st' = false
    /\ inst st' = inst st
    /\ hist st' = hist st ++ [EvQuit (WebDriver x)]
    /\ nextptr st' = nextptr st.
Proof.
  intros Hmu Hin.
  destruct (Close_present E x st Hmu Hin) as (last & Hlast & Hrun).
  destruct (search_spec x (sessions st) 0 Hin) as (i & found & Hs & Hi & Hf).
  exists found. eexists. split; [exact Hrun|].
  split; [exact Hf|].
  cbn [sessions emit emit_all set_sessions smu inst hist nextptr].
  split; [|done].
  rewrite Hs, Z.add_0_l, Nat2Z.id.
  apply swap_remove_perm; [exact Hi|].
  apply index_lookup in Hlast.
  by replace (Z.to_nat (Z.of_nat (length (sessions st)) - 1))
    with (length (sessions st) - 1)%nat in Hlast by lia.
Qed.


(** [New], step by step. *)
Lemma New_run (profile : string) (w h : Z) (headless : bool) (tmo : Z)
  (st : state) :
  New E profile w h headless tmo st
  = match inst st with
    | None => Panic "nil pointer dereference" st
    | Some sv =>
        let called :=
          emit (EvNewRemote (chrome_args profile w h headless)
                            (hub_url (server_port sv))) st in
        match NewRemote E (hist st) (chrome_args profile w h headless)
                (hub_url (server_port sv)) with
        | inr e => Ret (None, Some e) called
        | inl wd =>
            let x := {| self := nextptr st; WebDriver := wd; timeout := tmo |} in
            if smu st then Blocked (set_nextptr (S (nextptr st)) called)
            else Ret (Some x, None)
                     (set_sessions (sessions st ++ [x])
                        (set_nextptr (S (nextptr st)) called))
        end
    end.
Proof.
  unfold New, mbind, M_bind, bind, gets. cbn beta.
  destruct (inst st) as [sv|]; [|reflexivity].
  unfold Remote. fold (chrome_args profile w h headless).
  fold (hub_url (server_port sv)).
  destruct (NewRemote E _ _ _) as [wd|e]; [|reflexivity].
  unfold modify, locked, Lock, Unlock, mret, M_ret, ret, bind.
  cbn [nextptr emit emit_all smu set_nextptr sessions set_sessions].
  destruct (smu st) eqn:Hmu; [reflexivity|].
  unfold set_sessions, set_smu, set_nextptr, emit, emit_all. cbn.
  by rewrite Hmu.
Qed.


Lemma search_app_absent (x : Session) (l l' : list Session) (idx : Z) :
  Forall (fun y => same x y = false) l ->
  search x (l ++ l') idx = search x l' (idx + Z.of_nat (length l)).
Proof.
  intros Hl. revert idx. induction Hl as [|y l Hy _ IH]; intros idx.
  - cbn. by rewrite Z.add_0_r.
  - cbn [app search length]. rewrite Hy, IH. f_equal. lia.
Qed.

Lemma fresh_absent (st : state) (wd : nat) (tmo : Z) :
  registry_fresh st ->
  Forall (fun y => same {| self := nextptr st; WebDriver := wd;
                           timeout := tmo |} y = false) (sessions st).
Proof.
  intros [Hlt _]. eapply Forall_impl; [exact Hlt|].
  intros y Hy. cbn beta in Hy. unfold same. cbn [self]. apply Nat.eqb_neq. lia.
Qed.

(** X2. A session that [New] returns is appended to the registry, and
    closing it straight away gives back the registry there was before [New],
    in the same order, with the server untouched and the mutex free. *)
Theorem New_then_Close (profile : string) (w h : Z) (headless : bool)
  (tmo : Z) (st st1 : state) (x : Session) :
  registry_fresh st ->
  smu st = false ->
  New E profile w h headless tmo st = Ret (Some x, None) st1 ->
  exists st2,
    Session_Close E x st1 = Ret (wd_Quit E (hist st1) (WebDriver x)) st2
    /\ sessions st1 = sessions st ++ [x]
    /\ sessions st2 = sessions st
    /\ inst st2 = inst st
    /\ smu st2 = false.
Proof.
  intros Hfresh Hmu Hnew. rewrite New_run in Hnew.
  destruct (inst st) as [sv|] eqn:Hinst; [|done].
  destruct (NewRemote E _ _ _) as [wd|e]; [|done].
  rewrite Hmu in Hnew. cbv zeta in Hnew. injection Hnew as <- <-.
  set (x := {| self := nextptr st; WebDriver := wd; timeout := tmo |}).
  assert (Habs := fresh_absent st wd tmo Hfresh). fold x in Habs.
  match goal with |- context [Session_Close E x ?s] => set (st1 := s) end.
  assert (Hs1 : sessions st1 = sessions st ++ [x]) by reflexivity.
  destruct (Close_present E x st1) as (last & Hlast & Hrun).
  { exact Hmu. }
  { rewrite Hs1. apply Exists_app. right. apply Exists_cons. left.
    unfold same. apply Nat.eqb_refl. }
  eexists. split; [exact Hrun|]. split; [exact Hs1|].
  cbn [sessions emit emit_all set_sessions inst smu].
  split; [|split; [exact Hinst|exact Hmu]].
  apply index_lookup in Hlast. rewrite Hs1 in *.
  rewrite search_app_absent by exact Habs.
  cbn [search]. unfold same at 1. rewrite Nat.eqb_refl.
  rewrite length_app in *. cbn [length] in *.
  replace (Z.to_nat (Z.of_nat (length (sessions st) + 1) - 1))
    with (length (sessions st)) in Hlast by lia.
  rewrite Z.add_0_l, Nat2Z.id.
  rewrite lookup_app_r, Nat.sub_diag in Hlast by lia.
  injection Hlast as <-.
  rewrite list_insert_id
    by (rewrite lookup_app_r by lia; by rewrite Nat.sub_diag).
  replace (length (sessions st) + 1 - 1)%nat with (length (sessions st)) by lia.
  apply take_app_length.
Qed.


Lemma poll_events_quiet (url : string) (n : nat) :
  forallb (fun e => negb (is_Notify e)) (poll_events url n) = true.
Proof. induction n as [|n IH]; [done|]. exact IH. Qed.

(** The loop makes [k <= n] rounds and stops at the first recognised
    answer, or makes all [n] rounds and fails. *)
Lemma poll_shape (n : nat) (dr : driver) (st : state) :
  exists (k : nat) r,
    (k <= n)%nat
    /\ poll E n dr st
       = Ret r (emit_all (poll_events (addr dr +:+ "/status") k) st)
    /\ (r = (Some dr, true, None) \/ exists e, r = (None, false, Some e)).
Proof.
  revert st. induction n as [|n IH]; intros st.
  - exists 0%nat. eexists. split; [lia|]. cbn [poll poll_events].
    rewrite emit_all_nil. split; [reflexivity|]. right. by eexists.
  - rewrite poll_step. cbv zeta.
    destruct (recognized _).
    + exists 1%nat. eexists. split; [lia|]. cbn [poll_events].
      unfold emit. rewrite emit_all_app. split; [reflexivity|]. by left.
    + destruct (IH (emit (EvGet (addr dr +:+ "/status"))
                         (emit (EvSleep Second) st)))
        as (k & r & Hk & Hr & Hd).
      exists (S k), r. split; [lia|]. rewrite Hr. cbn [poll_events].
      unfold emit. rewrite !emit_all_app. split; [reflexivity|exact Hd].
Qed.

(** [newChromeDriver] installs no signal handler and touches nothing but
    the history. *)
Lemma newChromeDriver_shape (path : string) (p : Z) (st : state) :
  exists r evs,
    newChromeDriver E path p st = Ret r (emit_all evs st)
    /\ forallb (fun e => negb (is_Notify e)) evs = true
    /\ ((exists c owned,
           r = (Some (with_cmd c (chromeDriver path p (debugFlag st))),
                owned, None))
        \/ exists e, r = (None, false, Some e)).
Proof.
  rewrite newChromeDriver_run. cbv zeta.
  destruct (recognized _).
  - eexists _, _. split; [reflexivity|]. split; [reflexivity|]. left.
    by exists (cmd (chromeDriver path p (debugFlag st))), false.
  - destruct (cmd_Start _ _ _) as [e|].
    + eexists _, _. split; [reflexivity|]. split; [reflexivity|].
      right. by eexists.
    + match goal with |- context [poll E 30 ?dr ?s] =>
        destruct (poll_shape 30 dr s) as (k & r & _ & Hr & Hd) end.
      exists r. eexists. rewrite Hr, emit_all_app.
      split; [reflexivity|]. split.
      * cbn [app forallb is_Notify negb andb]. apply poll_events_quiet.
      * destruct Hd as [->|Hd]; [left|by right]. by eexists _, _.
Qed.

Lemma so_far_app (f : event -> bool) (a b : list event) :
  so_far f (a ++ b) = (so_far f a + so_far f b)%nat.
Proof. unfold so_far. by rewrite List.filter_app, length_app. Qed.

Lemma so_far_none (f : event -> bool) (l : list event) :
  forallb (fun e => negb (f e)) l = true -> so_far f l = 0%nat.
Proof.
  unfold so_far. induction l as [|e l IH]; [done|]. cbn.
  destruct (f e); [done|]. exact IH.
Qed.

Ltac init_accepts p Hpath Hp :=
  unfold Init;
  destruct (String.eqb_spec (TrimSpace E (Getenv E "CHROME_DRIVER")) "")
    as [Hempty|_]; [exfalso; exact (Hpath Hempty)|];
  destruct (Z.ltb_spec p 1000) as [Hlow|_]; [exfalso; lia|].

Lemma Init_fresh_shape (p : Z) (debug : bool) (st : state) :
  TrimSpace E (Getenv E "CHROME_DRIVER") <> "" ->
  1000 <= p ->
  smu st = false ->
  inst st = None ->
  exists r evs st',
    Init E p debug st = Ret r st'
    /\ hist st' = hist st ++ evs
    /\ smu st' = false
    /\ sessions st' = sessions st
    /\ nextptr st' = nextptr st
    /\ debugFlag st' = debug
    /\ match r with
       | None =>
           so_far is_Notify evs = 1%nat
           /\ exists dr owned,
                inst st' = Some {| d := Some dr; server_port := p;
                                   ownDriver := owned |}
                /\ port dr = p
                /\ addr dr = hub_url p
                /\ shutdownURLPath dr = "/shutdown"
       | Some e => so_far is_Notify evs = 0%nat /\ inst st' = None
       end.
Proof.
  intros Hpath Hp Hmu Hinst. init_accepts p Hpath Hp.
  unfold locked, Lock, Unlock, mbind, M_bind, bind, Pgrep, gets,
    SetDebug, Notify.
  destruct (0 <? _);
    unfold Printf, modify, mret, M_ret, ret, emit, emit_all, set_smu,
      set_debugFlag;
    cbn [smu inst hist sessions debugFlag nextptr]; rewrite Hmu, Hinst;
    cbn [smu inst hist sessions debugFlag nextptr];
    (match goal with |- context [newChromeDriver E ?a ?b ?s1] =>
       destruct (newChromeDriver_shape a b s1) as (r & evs & Hr & Hq & Hd);
       rewrite Hr end);
    (destruct Hd as [(c & owned & ->)|(e & ->)];
     [ exists None | exists (Some e) ]);
    eexists; eexists; (split; [reflexivity|]);
    cbn [hist emit_all set_inst smu sessions inst debugFlag nextptr];
    rewrite <- ?app_assoc; (split; [reflexivity|]);
    (repeat split; try done);
    rewrite ?so_far_app, ?(so_far_none _ _ Hq); try reflexivity;
    by eexists _, _.
Qed.


(** X4. [Init] with no server active and the mutex free always returns, and
    it leaves the mutex free and the sessions alone. It returns a nil error
    exactly when a server is then active, and exactly when it installed the
    signal handler (once; never on an error). An active server has the
    requested port, which is at least 1000, and its driver listens on that
    port at the hub address. *)
Theorem Init_outcomes (p : Z) (debug : bool) (st : state) :
  smu st = false ->
  inst st = None ->
  exists r evs st',
    Init E p debug st = Ret r st'
    /\ hist st' = hist st ++ evs
    /\ smu st' = false
    /\ sessions st' = sessions st
    /\ (r = None <-> inst st' <> None)
    /\ (r = None <-> so_far is_Notify evs = 1%nat)
    /\ (r <> None -> so_far is_Notify evs = 0%nat)
    /\ (forall sv, inst st' = Some sv ->
         server_port sv = p /\ 1000 <= p
         /\ exists dr, d sv = Some dr /\ port dr = p /\ addr dr = hub_url p).
Proof.
  intros Hmu Hinst.
  destruct (String.eqb_spec (TrimSpace E (Getenv E "CHROME_DRIVER")) "")
    as [Hempty|Hpath].
  { eexists _, [], st. rewrite app_nil_r.
    split; [apply (proj1 (Init_rejects E p debug st)), Hempty|].
    rewrite Hinst. repeat split; try done. }
  destruct (Z.lt_ge_cases p 1000) as [Hlow|Hp].
  { eexists _, [], st. rewrite app_nil_r.
    split; [by apply (proj2 (Init_rejects E p debug st))|].
    rewrite Hinst. repeat split; try done. }
  destruct (Init_fresh_shape p debug st Hpath Hp Hmu Hinst)
    as (r & evs & st' & Hrun & Hh & Hmu' & Hs & _ & _ & Hr).
  exists r, evs, st'. split; [exact Hrun|]. split; [exact Hh|].
  split; [exact Hmu'|]. split; [exact Hs|].
  destruct r as [e|].
  - destruct Hr as [Hn Hi]. rewrite Hi, Hn. repeat split; try done.
  - destruct Hr as (Hn & dr & owned & Hi & Hport & Haddr & _).
    rewrite Hi, Hn. split; [done|]. split; [done|]. split; [done|].
    intros sv [= <-]. cbn. split; [done|]. split; [done|]. by exists dr.
Qed.

Lemma registry_fresh_perm (l l' : list Session) (found : Session) (n : nat) :
  found :: l' ≡ₚ l ->
  Forall (fun y => (self y < n)%nat) l /\ NoDup (map self l) ->
  Forall (fun y => (self y < n)%nat) l' /\ NoDup (map self l').
Proof.
  intros Hp [Hlt Hnd]. rewrite <- Hp in Hlt, Hnd.
  apply Forall_cons in Hlt as [_ Hlt]. cbn in Hnd.
  apply NoDup_cons in Hnd as [_ Hnd]. done.
Qed.

(** X3. Invariant of the registry: the sessions registered are pairwise
    distinct objects, all allocated before. [New], [Close] and [Init] each
    keep it whenever they return from a state with the mutex free, and so
    does [Shutdown] when the server marker, if set, holds its driver as
    [Init] builds it. *)
Theorem registry_fresh_kept (st : state) :
  registry_fresh st ->
  smu st = false ->
  (forall profile w h headless tmo r st',
     New E profile w h headless tmo st = Ret r st' -> registry_fresh st')
  /\ (forall x r st',
        Session_Close E x st = Ret r st' -> registry_fresh st')
  /\ (registry_ok st ->
      forall st', Shutdown E st = Ret tt st' -> registry_fresh st')
  /\ (forall p debug r st',
        Init E p debug st = Ret r st' -> registry_fresh st').
Proof.
  intros Hfresh Hmu. split; [|split; [|split]].
  - intros profile w h headless tmo r st' Hnew. rewrite New_run in Hnew.
    destruct (inst st) as [sv|]; [|done].
    destruct (NewRemote E _ _ _) as [wd|e].
    + rewrite Hmu in Hnew. cbv zeta in Hnew. injection Hnew as <- <-.
      destruct Hfresh as [Hlt Hnd]. split.
      * cbn [sessions nextptr set_sessions set_nextptr emit emit_all].
        apply Forall_app. split.
        -- eapply Forall_impl; [exact Hlt|]. intros y Hy. cbn beta in Hy. lia.
        -- apply Forall_singleton. cbn [self]. lia.
      * cbn [sessions nextptr set_sessions set_nextptr emit emit_all].
        rewrite map_app. apply NoDup_app. split; [exact Hnd|].
        split; [|apply NoDup_singleton].
        intros a Ha Hx. cbn in Hx. apply list_elem_of_singleton in Hx as ->.
        apply list_elem_of_fmap in Ha as (y & Hy & Hin).
        rewrite Forall_forall in Hlt. specialize (Hlt y Hin).
        cbn beta in Hlt. lia.
    + injection Hnew as <- <-. exact Hfresh.
  - intros x r st' Hclose.
    destruct (decide (Exists (fun y => same x y = true) (sessions st)))
      as [Hin|Hout].
    + destruct (Close_removes_present x st Hmu Hin)
        as (found & st2 & Hrun & _ & Hperm & _ & _ & _ & Hnext).
      rewrite Hrun in Hclose. injection Hclose as _ <-.
      unfold registry_fresh. rewrite Hnext.
      by eapply registry_fresh_perm.
    + apply not_Exists_Forall in Hout; [|intros y; apply _].
      rewrite (Close_absent_panics E x st Hmu) in Hclose; [done|].
      eapply Forall_impl; [exact Hout|]. intros y Hy.
      apply not_true_is_false. exact Hy.
  - intros Hok st' Hrun.
    destruct (Shutdown_run E st Hmu Hok) as (stopping & Hrun' & _).
    rewrite Hrun' in Hrun. injection Hrun as <-.
    split; [apply Forall_nil_2|apply NoDup_nil_2].
  - intros p debug r st' Hrun.
    assert (Hframe : sessions st' = sessions st /\ nextptr st' = nextptr st).
    { destruct (String.eqb_spec (TrimSpace E (Getenv E "CHROME_DRIVER")) "")
        as [Hempty|Hpath].
      { rewrite (proj1 (Init_rejects E p debug st) Hempty) in Hrun.
        by injection Hrun as <- <-. }
      destruct (Z.lt_ge_cases p 1000) as [Hlow|Hp].
      { rewrite (proj2 (Init_rejects E p debug st) Hpath Hlow) in Hrun.
        by injection Hrun as <- <-. }
      destruct (inst st) as [sv|] eqn:Hinst.
      - rewrite Init_active in Hrun by (try done; congruence).
        by injection Hrun as <- <-.
      - destruct (Init_fresh_shape p debug st Hpath Hp Hmu Hinst)
          as (r2 & evs & st2 & Hrun2 & _ & _ & Hs & Hn & _).
        rewrite Hrun2 in Hrun. by injection Hrun as <- <-. }
    destruct Hframe as [Hs Hn]. unfold registry_fresh. by rewrite Hs, Hn.
Qed.


(** X1. [Close] of a registered session, with the mutex free, returns what
    the remote [Quit] answers and leaves the registry with exactly the
    other sessions: one entry fewer, the closed session gone, every other
    session still there. The server and the mutex are as before and the
    only request made is the session's [Quit]. *)
Theorem Close_removes_session (x : Session) (st : state) :
  registry_fresh st ->
  smu st = false ->
  Exists (fun y => same x y = true) (sessions st) ->
  exists st',
    Session_Close E x st = Ret (wd_Quit E (hist st) (WebDriver x)) st'
    /\ (forall y, y ∈ sessions st' <-> y ∈ sessions st /\ same x y = false)
    /\ length (sessions st) = S (length (sessions st'))
    /\ smu st' = false
    /\ inst st' = inst st
    /\ hist st' = hist st ++ [EvQuit (WebDriver x)].
Proof.
  intros [_ Hnd] Hmu Hin.
  destruct (Close_removes_present x st Hmu Hin)
    as (found & st' & Hrun & Hf & Hperm & Hmu' & Hinst & Hhist & _).
  exists st'. split; [exact Hrun|]. split; [|split; [|done]].
  - rewrite <- Hperm in Hnd. cbn in Hnd.
    apply NoDup_cons in Hnd as [Hnew _].
    unfold same in Hf. apply Nat.eqb_eq in Hf.
    intros y. rewrite <- Hperm, elem_of_cons. split.
    + intros Hy. split; [by right|].
      unfold same. apply Nat.eqb_neq. intros Heq. apply Hnew.
      apply list_elem_of_fmap. exists y. split; [congruence|exact Hy].
    + intros [[->|Hy] Hne]; [|exact Hy].
      unfold same in Hne. apply Nat.eqb_neq in Hne. congruence.
  - by rewrite <- Hperm.
Qed.

(** X5. [Shutdown] is idempotent in effect: a second [Shutdown] right after
    one that returned closes nothing, stops nothing, logs that the driver is
    left alone and that shutdown is complete, and leaves the server marker
    as the first one left it. *)
Theorem Shutdown_twice (st st1 : state) :
  smu st = false ->
  registry_ok st ->
  Shutdown E st = Ret tt st1 ->
  exists st2,
    Shutdown E st1 = Ret tt st2
    /\ hist st2 = hist st1 ++ [leave_alone_notice; complete_notice]
    /\ inst st2 = inst st1
    /\ sessions st2 = [].
Proof.
  intros Hmu Hok Hrun.
  destruct (Shutdown_run E st Hmu Hok) as (stopping & Hrun1 & _).
  rewrite Hrun1 in Hrun. injection Hrun as <-.
  match goal with |- context [Shutdown E ?s] => set (st1 := s) end.
  assert (Hok1 : registry_ok st1).
  { intros sv Hsv. cbn in Hsv. unfold marker_after in Hsv.
    destruct (inst st) as [sv0|] eqn:Hinst; [|done].
    destruct (ownDriver sv0); [done|]. injection Hsv as <-.
    exact (Hok sv0 Hinst). }
  destruct (Shutdown_run E st1 eq_refl Hok1) as (stopping2 & Hrun2 & Hstop).
  eexists. split; [exact Hrun2|]. cbn [hist inst sessions].
  assert (Hquiet : stopping2 = [leave_alone_notice; complete_notice]).
  { cbn [inst st1] in Hstop. unfold marker_after in Hstop.
    destruct (inst st) as [sv0|]; [|exact Hstop].
    destruct (ownDriver sv0) eqn:Hown; [exact Hstop|].
    cbn in Hstop. by rewrite Hown in Hstop. }
  rewrite Hquiet. split; [reflexivity|]. split; [|reflexivity].
  unfold marker_after. cbn [inst st1]. unfold marker_after.
  destruct (inst st) as [sv0|]; [|done].
  destruct (ownDriver sv0) eqn:Hown; [done|]. by rewrite Hown.
Qed.

(** X6. [New] after [Shutdown]: when the package had started the driver
    itself (or no server was ever active) the server marker is nil and [New]
    panics on it, before any request and without taking the mutex; when the
    driver had been adopted the marker survives and [New] still asks the hub
    of that port for a browser. *)
Theorem New_after_Shutdown (st st' : state) (profile : string) (w h : Z)
  (headless : bool) (tmo : Z) :
  smu st = false ->
  registry_ok st ->
  Shutdown E st = Ret tt st' ->
  match inst st with
  | Some sv =>
      if ownDriver sv
      then New E profile w h headless tmo st'
           = Panic "nil pointer dereference" st'
      else exists r st'',
             New E profile w h headless tmo st' = Ret r st''
             /\ hist st'' = hist st'
                            ++ [EvNewRemote (chrome_args profile w h headless)
                                            (hub_url (server_port sv))]
  | None =>
      New E profile w h headless tmo st' = Panic "nil pointer dereference" st'
  end.
Proof.
  intros Hmu Hok Hrun.
  destruct (Shutdown_run E st Hmu Hok) as (stopping & Hrun1 & _).
  rewrite Hrun1 in Hrun. injection Hrun as <-.
  rewrite New_run. cbn [inst smu hist nextptr sessions]. unfold marker_after.
  destruct (inst st) as [sv|]; [|reflexivity].
  destruct (ownDriver sv); [reflexivity|]. cbv zeta.
  destruct (NewRemote E _ _ _) as [wd|e]; by eexists _, _.
Qed.



(** X8. [Init] that succeeded, followed by [Shutdown]: the sessions are
    asked to quit, then a driver the package started is stopped through its
    [/shutdown] endpoint at the hub address and the server marker is
    cleared, while an adopted driver is left running and the marker kept.
    The mutex is free afterwards. *)
Theorem Init_then_Shutdown (p : Z) (debug : bool) (st st1 : state) :
  TrimSpace E (Getenv E "CHROME_DRIVER") <> "" ->
  1000 <= p ->
  smu st = false ->
  inst st = None ->
  Init E p debug st = Ret None st1 ->
  exists sv st2 stopping,
    inst st1 = Some sv
    /\ Shutdown E st1 = Ret tt st2
    /\ hist st2 = hist st1 ++ quit_events E (sessions st) ++ stopping
    /\ smu st2 = false
    /\ if ownDriver sv
       then inst st2 = None
            /\ exists rest,
                 stopping = stopping_notice
                            :: EvGet (hub_url p +:+ "/shutdown") :: rest
       else inst st2 = Some sv
            /\ stopping = [leave_alone_notice; complete_notice].
Proof.
  intros Hpath Hp Hmu Hinst Hrun.
  destruct (Init_fresh_shape p debug st Hpath Hp Hmu Hinst)
    as (r & evs & st' & Hrun' & _ & Hmu1 & Hs & _ & _ & Hr).
  rewrite Hrun' in Hrun. injection Hrun as -> ->.
  destruct Hr as (_ & dr & owned & Hi & _ & Haddr & Hsd).
  assert (Hok : registry_ok st1).
  { intros sv Hsv. rewrite Hi in Hsv. injection Hsv as <-. by exists dr. }
  destruct (Shutdown_run E st1 Hmu1 Hok) as (stopping & Hsh & Hstop).
  eexists _, _, stopping. split; [exact Hi|]. split; [exact Hsh|].
  cbn [hist smu inst]. rewrite Hs. split; [reflexivity|]. split; [reflexivity|].
  rewrite Hi in Hstop |- *. cbn [ownDriver marker_after d] in Hstop |- *.
  destruct owned.
  - destruct Hstop as (dr' & rest & [= <-] & -> & _).
    split; [reflexivity|]. rewrite Haddr. by eexists.
  - by split.
Qed.

End RegistryMore.

(** ** The poll engine, inverted *)

Section PollMore.

Context {St : Type}.
Variable stack : string.
Variable fn : @probe St.

Lemma waits_cons (n : nat) (st : St) :
  (fn st).1 = (false, None) -> waits fn n (fn st).2 -> waits fn (S n) st.
Proof.
  intros H0 Hw i Hi. destruct i as [|i]; [exact H0|].
  rewrite after_S. apply Hw. lia.
Qed.

(** What a returned [waitOn] tells: the probes before the last reception all
    answered [(false, nil)], and the result is the timeout, if that
    reception was the timer, or else the answer of the probe invoked on
    it. *)
Lemma waitOn_loop_inv (sel : list chan) (st st' : St) (r : option error) :
  waitOn_loop stack fn sel st = (Some r, st') ->
  exists n : nat,
    waits fn n st
    /\ ((sel !! n = Some to_C
         /\ r = Some (Wrapf ErrWaitTimeout stack)
         /\ st' = after fn n st)
        \/ exists done err,
             sel !! n = Some ticker_C
             /\ fn (after fn n st) = ((done, err), st')
             /\ match err with
                | Some e => r = Some e
                | None => done = true /\ r = None
                end).
Proof.
  revert st. induction sel as [|[|] sel IH]; intros st; [done| |].
  - cbn [waitOn_loop]. destruct (fn st) as [[done err] st1] eqn:Hfn.
    destruct err as [e|].
    + intros [= <- <-]. exists 0%nat. split; [intros i Hi; lia|].
      right. exists done, (Some e). split; [done|]. split; [exact Hfn|done].
    + destruct done.
      * intros [= <- <-]. exists 0%nat. split; [intros i Hi; lia|].
        right. exists true, None. split; [done|]. split; [exact Hfn|done].
      * intros Hrun. destruct (IH _ Hrun) as (n & Hw & Hcase).
        exists (S n). split.
        { apply waits_cons; [by rewrite Hfn|]. rewrite Hfn. exact Hw. }
        rewrite after_S, Hfn. exact Hcase.
  - intros [= <- <-]. exists 0%nat. split; [intros i Hi; lia|]. by left.
Qed.

End PollMore.

(** One reception per modelled iteration at most. *)
Lemma selects_length (tm : timers) (rt : list (bool * Z)) :
  (length (selects tm rt) <= length rt)%nat.
Proof.
  revert tm. induction rt as [|[coin dur] rt' IH]; intros tm; [done|].
  cbn [selects]. destruct (select coin tm) as [[|] t]; cbn [length].
  - specialize (IH (after_tick tm t dur)). lia.
  - lia.
Qed.

(** X9. What a returned [waitOn] tells. The probe was invoked on some [n]
    ticks, fewer than the receptions available, and answered "not done, no
    error" each time. Then either the deadline was received and the result
    is [ErrWaitTimeout] wrapped with the stack, or the probe was invoked
    once more and the result is its error if it gave one, and nil only if
    it reported done. *)
Theorem waitOn_returns_last_answer {St} (stack : string) (fn : @probe St)
  (tmo : Z) (rt : list (bool * Z)) (st st' : St) (r : option error) :
  waitOn stack fn tmo rt st = (Some r, st') ->
  exists n : nat,
    waits fn n st
    /\ (n < length rt)%nat
    /\ ((r = Some (Wrapf ErrWaitTimeout stack) /\ st' = after fn n st)
        \/ exists done err,
             fn (after fn n st) = ((done, err), st')
             /\ match err with
                | Some e => r = Some e
                | None => done = true /\ r = None
                end).
Proof.
  unfold waitOn. intros Hrun.
  destruct (waitOn_loop_inv stack fn _ _ _ _ Hrun) as (n & Hw & Hcase).
  exists n. split; [exact Hw|].
  assert (Hlen := selects_length).
  split.
  - assert (Hn : (n < length (selects (arm tmo) rt))%nat).
    { destruct Hcase as [(Hn & _)|(done & err & Hn & _)];
        by eapply lookup_lt_Some. }
    specialize (Hlen (arm tmo) rt). lia.
  - destruct Hcase as [(_ & Hr & Hs)|(done & err & _ & Hfn & Hr)];
      [by left|right]. by exists done, err.
Qed.

(** ** Recognising errors by their text *)

Lemma prefix_spec (a t : string) :
  String.prefix a t = true <-> exists b, t = a +:+ b.
Proof.
  revert a. induction t as [|c t IH]; intros a.
  - destruct a as [|c' a]; cbn.
    + split; [by exists ""|done].
    + split; [done|]. by intros (b & [=]).
  - destruct a as [|c' a]; cbn.
    + split; [by eexists|done].
    + destruct (Ascii.ascii_dec c' c) as [->|Hne].
      * rewrite IH. split.
        -- intros (b & ->). by exists b.
        -- intros (b & [= ->]). by exists b.
      * split; [done|]. intros (b & [= ? ?]). by subst.
Qed.

Lemma Contains_app (a t sub : string) :
  Contains t sub = true -> Contains (a +:+ t) sub = true.
Proof.
  intros Ht. induction a as [|c a IH]; [exact Ht|].
  change (Contains (String c (a +:+ t)) sub = true).
  change (String.prefix sub (String c (a +:+ t)) || Contains (a +:+ t) sub
          = true).
  rewrite IH. apply orb_true_r.
Qed.

(** [strings.Contains]: the second string occurs somewhere in the first. *)
Lemma Contains_spec (t sub : string) :
  Contains t sub = true <-> exists a b, t = a +:+ sub +:+ b.
Proof.
  split.
  - induction t as [|c t IH]; cbn [Contains].
    + rewrite orb_false_r. intros Hp. apply prefix_spec in Hp as (b & Hb).
      by exists "", b.
    + intros [Hp|Ht]%orb_true_iff.
      * apply prefix_spec in Hp as (b & Hb). by exists "", b.
      * destruct (IH Ht) as (a & b & ->). by exists (String c a), b.
  - intros (a & b & ->). apply Contains_app.
    destruct (sub +:+ b) eqn:Hs; cbn [Contains];
      (apply orb_true_iff; left; apply prefix_spec; by exists b).
Qed.

(** X14. [notFound] recognises an error by its text alone: it holds exactly
    when the message contains ["no such element"]. Hence wrapping an error
    with a message keeps it recognised, and [Session.find] turns any such
    answer of the remote end into the sentinel [ErrNotFound] with no
    element. *)
Theorem notFound_by_text (e : error) :
  (notFound (Some e) = true
   <-> exists a b, Error e = a +:+ "no such element" +:+ b)
  /\ (forall msg, notFound (Some e) = true ->
        notFound (Some (Wrapf e msg)) = true)
  /\ (forall E x xpath st o,
        wd_FindElement E (hist st) (WebDriver x) xpath = (o, Some e) ->
        notFound (Some e) = true ->
        Session_find E x xpath st
        = ((None, Some ErrNotFound),
           emit (EvFindElement (WebDriver x) xpath) st)).
Proof.
  split; [apply Contains_spec|]. split.
  - intros msg He. unfold notFound in *. cbn [Error].
    by do 2 apply Contains_app.
  - intros E x xpath st o Hans He.
    unfold Session_find, FindElement. by rewrite Hans, He.
Qed.

(** ** NoStale *)

Section NoStaleMore.

Context {St : Type}.
Variable stack : string.
Variable x : Session.
Variable fn : St -> option error * St.

Lemma NoStale_probe_run (st : St) :
  NoStale_probe fn st
  = if retryable (fn st).1 then ((false, None), (fn st).2)
    else ((true, (fn st).1), (fn st).2).
Proof. unfold NoStale_probe, retryable. by destruct (fn st) as [[e|] st']. Qed.

(** X15. What a returned [NoStale] tells. The operation was run [n] times
    with an outcome to retry ([ErrNeedRetry] or a stale element). Then
    either the deadline was received and the result is [ErrWaitTimeout]
    wrapped with the stack, or the operation was run once more and its own
    result, which is not to be retried, is returned as it is. *)
Theorem NoStale_result (rt : list (bool * Z)) (st st' : St)
  (r : option error) :
  Session_NoStale stack x fn rt st = (Some r, st') ->
  exists n : nat,
    (forall i, (i < n)%nat ->
       retryable (fn (after (NoStale_probe fn) i st)).1 = true)
    /\ ((r = Some (Wrapf ErrWaitTimeout stack)
         /\ st' = after (NoStale_probe fn) n st)
        \/ (fn (after (NoStale_probe fn) n st) = (r, st')
            /\ retryable r = false)).
Proof.
  unfold Session_NoStale, waitOn. intros Hrun.
  destruct (waitOn_loop_inv _ _ _ _ _ _ Hrun) as (n & Hw & Hcase).
  exists n. split.
  - intros i Hi. specialize (Hw i Hi). rewrite NoStale_probe_run in Hw.
    by destruct (retryable _).
  - destruct Hcase as [(_ & -> & ->)|(dn & err & _ & Hfn & Hr)]; [by left|].
    right. rewrite NoStale_probe_run in Hfn.
    destruct (retryable _) eqn:Hretry.
    + injection Hfn as <- <- <-. by destruct Hr.
    + injection Hfn as <- <- <-.
      destruct (fn (after (NoStale_probe fn) n st)) as [e s1].
      cbn [fst snd] in *. destruct e as [e|].
      * by rewrite Hr.
      * destruct Hr as [_ ->]. done.
Qed.

End NoStaleMore.

(** ** Locating through any finder *)

Section FindersMore.

Context {W : Type}.
Variable stack : string.
Variable sess : Session.

(** [find] never returns a nil element with a nil error, and an element it
    returns is bound to the session. *)
Lemma find_with_shape (f : @finder W) (xpath : string) (w : W) :
  exists w',
    (exists we, find_with f sess xpath w
                = ((Some {| s := sess; WebElement := we |}, None), w'))
    \/ (exists e, find_with f sess xpath w = ((None, Some e), w')).
Proof.
  unfold find_with. destruct (f xpath w) as [[o err] w']. exists w'.
  destruct (notFound err); [right; by eexists|].
  destruct err as [e|]; [right; by eexists|].
  destruct o as [we|]; [left; by eexists|right; by eexists].
Qed.

(** [findN] returns either an error and no element, or no error and as
    many elements as the remote end found, at least one, each bound to the
    session. *)
Lemma findN_with_shape (f : @findersN W) (xpath : string) (w : W) :
  exists w',
    (exists wes, wes <> []
       /\ f xpath w = ((wes, None), w')
       /\ findN_with f sess xpath w
          = ((map (fun we => {| s := sess; WebElement := we |}) wes, None),
             w'))
    \/ (exists e, findN_with f sess xpath w = (([], Some e), w')).
Proof.
  unfold findN_with. destruct (f xpath w) as [[wes err] w']. exists w'.
  destruct (notFound err) eqn:Hnf; [right; by eexists|].
  destruct err as [e|]; [right; by eexists|].
  destruct wes as [|we wes]; [right; by eexists|].
  left. by exists (we :: wes).
Qed.

Lemma GetDOM_probe_with_shape (f : @finder W) (xpath : string)
  (ret : option Element) (w : W) :
  exists dn err ret' w',
    GetDOM_probe_with f sess xpath (ret, w) = ((dn, err), (ret', w'))
    /\ match err with
       | Some _ => ret' = ret
       | None =>
           if dn
           then exists we, ret' = Some {| s := sess; WebElement := we |}
           else ret' = ret
       end.
Proof.
  unfold GetDOM_probe_with.
  destruct (find_with_shape f xpath w) as (w' & [(we & ->)|(e & ->)]).
  - eexists _, _, _, _. split; [reflexivity|]. by exists we.
  - destruct (is_ErrNotFound e); eexists _, _, _, _; by split.
Qed.

Lemma GetDOMs_probe_with_shape (f : @findersN W) (xpath : string)
  (ret : list Element) (w : W) :
  exists dn err ret' w',
    GetDOMs_probe_with f sess xpath (ret, w) = ((dn, err), (ret', w'))
    /\ match err with
       | Some _ => ret' = ret
       | None =>
           if dn
           then ret' <> [] /\ Forall (fun el => s el = sess) ret'
           else ret' = ret
       end.
Proof.
  unfold GetDOMs_probe_with.
  destruct (findN_with_shape f xpath w)
    as (w' & [(wes & Hne & _ & ->)|(e & ->)]).
  - destruct wes as [|we wes]; [done|]. cbn [length map].
    eexists _, _, _, _. split; [reflexivity|]. split; [done|].
    apply Forall_cons. split; [done|].
    apply Forall_forall. intros el Hel.
    apply list_elem_of_fmap in Hel as (we' & -> & _). done.
  - destruct (is_ErrNotFound e); eexists _, _, _, _; by split.
Qed.

(** A probe with a captured variable: as long as it keeps waiting the
    variable is as it was at the start. *)
Lemma after_captured {V} (pr : @probe (V * W)) (n : nat) (v : V) (w : W) :
  (forall v0 w0, (pr (v0, w0)).1 = (false, None) -> (pr (v0, w0)).2.1 = v0) ->
  waits pr n (v, w) ->
  (after pr n (v, w)).1 = v.
Proof.
  intros Hkeep. induction n as [|n IH]; intros Hw; [done|].
  assert (Hn := Hw n ltac:(lia)).
  change (after pr (S n) (v, w)) with ((pr (after pr n (v, w))).2).
  destruct (after pr n (v, w)) as [v0 w0] eqn:Ha.
  cbn [fst] in IH. rewrite <- (IH ltac:(intros i Hi; apply Hw; lia)).
  by apply Hkeep.
Qed.

Lemma GetDOM_with_shape (f : @finder W) (xpath : string) (to : Z)
  (rt : list (bool * Z)) (w w' : W) (ret : option Element)
  (err : option error) :
  GetDOM_with stack f sess xpath to rt w = (Some (ret, err), w') ->
  match err with
  | None => exists we, ret = Some {| s := sess; WebElement := we |}
  | Some _ => ret = None
  end.
Proof.
  unfold GetDOM_with, waitOn.
  destruct (waitOn_loop _ _ _ _) as [r [ret1 w1]] eqn:Hrun.
  destruct r as [r|]; [|done]. intros [= <- <- <-].
  destruct (waitOn_loop_inv _ _ _ _ _ _ Hrun) as (n & Hw & Hcase).
  assert (Hret : (after (GetDOM_probe_with f sess xpath) n (None, w)).1 = None).
  { apply after_captured; [|exact Hw]. intros v0 w0.
    destruct (GetDOM_probe_with_shape f xpath v0 w0)
      as (dn & e & ret' & w2 & -> & Hs). cbn. by intros [= -> ->]. }
  destruct (after (GetDOM_probe_with f sess xpath) n (None, w))
    as [ret0 w0] eqn:Ha.
  cbn [fst] in Hret. subst ret0.
  destruct Hcase as [(_ & -> & [= <- <-])|(dn & e & _ & Hfn & Hr)]; [done|].
  destruct (GetDOM_probe_with_shape f xpath None w0)
    as (dn' & err' & ret' & w2 & Hp & Hshape).
  rewrite Hp in Hfn. injection Hfn as -> -> -> ->.
  destruct e as [e|].
  - by rewrite Hr.
  - destruct Hr as [-> ->]. exact Hshape.
Qed.

Lemma GetDOMs_with_shape (f : @findersN W) (xpath : string)
  (rt : list (bool * Z)) (w w' : W) (ret : list Element)
  (err : option error) :
  GetDOMs_with stack f sess xpath rt w = (Some (ret, err), w') ->
  match err with
  | None => ret <> [] /\ Forall (fun el => s el = sess) ret
  | Some _ => ret = []
  end.
Proof.
  unfold GetDOMs_with, waitOn.
  destruct (waitOn_loop _ _ _ _) as [r [ret1 w1]] eqn:Hrun.
  destruct r as [r|]; [|done]. intros [= <- <- <-].
  destruct (waitOn_loop_inv _ _ _ _ _ _ Hrun) as (n & Hw & Hcase).
  assert (Hret : (after (GetDOMs_probe_with f sess xpath) n ([], w)).1 = []).
  { apply after_captured; [|exact Hw]. intros v0 w0.
    destruct (GetDOMs_probe_with_shape f xpath v0 w0)
      as (dn & e & ret' & w2 & -> & Hs). cbn. by intros [= -> ->]. }
  destruct (after (GetDOMs_probe_with f sess xpath) n ([], w))
    as [ret0 w0] eqn:Ha.
  cbn [fst] in Hret. subst ret0.
  destruct Hcase as [(_ & -> & [= <- <-])|(dn & e & _ & Hfn & Hr)]; [done|].
  destruct (GetDOMs_probe_with_shape f xpath [] w0)
    as (dn' & err' & ret' & w2 & Hp & Hshape).
  rewrite Hp in Hfn. injection Hfn as -> -> -> ->.
  destruct e as [e|].
  - by rewrite Hr.
  - destruct Hr as [-> ->]. exact Hshape.
Qed.

Lemma Wait_scan_with_shape (f : @finder W) (xpaths : list string)
  (idx selected : Z) (w : W) :
  exists dn err sel' w',
    Wait_scan_with f sess xpaths idx selected w = ((dn, err), (sel', w'))
    /\ match err with
       | Some _ => sel' = selected
       | None =>
           if dn then idx <= sel' < idx + Z.of_nat (length xpaths)
           else sel' = selected
       end.
Proof.
  revert idx w. induction xpaths as [|p0 xpaths IH]; intros idx w.
  - eexists _, _, _, _. by split.
  - cbn [Wait_scan_with length].
    destruct (find_with_shape f p0 w) as (w1 & [(we & ->)|(e & ->)]).
    + eexists _, _, _, _. split; [reflexivity|]. cbn. lia.
    + destruct (is_ErrNotFound e).
      * destruct (IH (idx + 1) w1) as (dn & err & sel' & w' & -> & Hs).
        eexists _, _, _, _. split; [reflexivity|].
        destruct err; [done|]. destruct dn; [lia|done].
      * eexists _, _, _, _. by split.
Qed.

Lemma Wait_probe_with_shape (status : W -> (bool * option error) * W)
  (f : @finder W) (xpaths : list string) (selected : Z) (w : W) :
  exists dn err sel' w',
    Wait_probe_with status f sess xpaths (selected, w)
    = ((dn, err), (sel', w'))
    /\ match err with
       | Some _ => sel' = selected
       | None =>
           if dn then 0 <= sel' < Z.of_nat (length xpaths)
           else sel' = selected
       end.
Proof.
  unfold Wait_probe_with.
  destruct (status w) as [[ready [e|]] w1].
  - eexists _, _, _, _. by split.
  - destruct ready; cbn [negb].
    + destruct (Wait_scan_with_shape f xpaths 0 selected w1)
        as (dn & err & sel' & w' & -> & Hs).
      eexists _, _, _, _. split; [reflexivity|].
      destruct err; [done|]. destruct dn; [lia|done].
    + eexists _, _, _, _. by split.
Qed.

Lemma Wait_with_bounds (status : W -> (bool * option error) * W)
  (f : @finder W) (xpaths : list string) (rt : list (bool * Z)) (w w' : W)
  (selected : Z) (err : option error) :
  Wait_with stack status f sess xpaths rt w = (Some (selected, err), w') ->
  match err with
  | None => 0 <= selected < Z.of_nat (length xpaths)
  | Some _ => selected = -1
  end.
Proof.
  unfold Wait_with, waitOn.
  destruct (waitOn_loop _ _ _ _) as [r [sel1 w1]] eqn:Hrun.
  destruct r as [r|]; [|done]. intros [= <- <- <-].
  destruct (waitOn_loop_inv _ _ _ _ _ _ Hrun) as (n & Hw & Hcase).
  assert (Hsel : (after (Wait_probe_with status f sess xpaths) n (-1, w)).1
                 = -1).
  { apply after_captured; [|exact Hw]. intros v0 w0.
    destruct (Wait_probe_with_shape status f xpaths v0 w0)
      as (dn & e & sel' & w2 & -> & Hs). cbn. by intros [= -> ->]. }
  destruct (after (Wait_probe_with status f sess xpaths) n (-1, w))
    as [sel0 w0] eqn:Ha.
  cbn [fst] in Hsel. subst sel0.
  destruct Hcase as [(_ & -> & [= <- <-])|(dn & e & _ & Hfn & Hr)]; [done|].
  destruct (Wait_probe_with_shape status f xpaths (-1) w0)
    as (dn' & err' & sel' & w2 & Hp & Hshape).
  rewrite Hp in Hfn. injection Hfn as -> -> -> ->.
  destruct e as [e|].
  - by rewrite Hr.
  - destruct Hr as [-> ->]. exact Hshape.
Qed.

End FindersMore.

(** The functions of [Session] over a history are the same bodies. *)
Lemma Session_GetDOM_with (E : environ) (x : Session) (xpath : string)
  (rt : list (bool * Z)) (st : state) :
  Session_GetDOM E x xpath rt st
  = GetDOM_with (Stack E) (FindElement E x) x xpath (timeout x) rt st.
Proof. reflexivity. Qed.

Lemma waitOn_loop_ext {St} (stack : string) (fn gn : @probe St)
  (sel : list chan) (st : St) :
  (forall s0, fn s0 = gn s0) ->
  waitOn_loop stack fn sel st = waitOn_loop stack gn sel st.
Proof.
  intros Heq. revert st. induction sel as [|[|] sel IH]; intros st; [done| |done].
  cbn [waitOn_loop]. rewrite Heq. destruct (gn st) as [[dn [e|]] st1]; [done|].
  destruct dn; [done|]. apply IH.
Qed.

Lemma Wait_scan_eq (E : environ) (x : Session) (xpaths : list string)
  (idx selected : Z) (st : state) :
  Wait_scan E x xpaths idx selected st
  = Wait_scan_with (FindElement E x) x xpaths idx selected st.
Proof.
  revert idx st. induction xpaths as [|p0 xpaths IH]; intros idx st; [done|].
  cbn [Wait_scan Wait_scan_with].
  change (find_with (FindElement E x) x p0 st) with (Session_find E x p0 st).
  destruct (Session_find E x p0 st) as [[result [e|]] st1].
  - destruct (is_ErrNotFound e); [apply IH|done].
  - destruct result; [done|apply IH].
Qed.

Lemma Session_Wait_with (E : environ) (x : Session) (xpaths : list string)
  (rt : list (bool * Z)) (st : state) :
  Session_Wait E x xpaths rt st
  = Wait_with (Stack E) (Status E x) (FindElement E x) x xpaths rt st.
Proof.
  unfold Session_Wait, Wait_with, waitOn.
  rewrite (waitOn_loop_ext _ (Wait_probe E x xpaths)
             (Wait_probe_with (Status E x) (FindElement E x) x xpaths));
    [done|].
  intros [selected s0]. unfold Wait_probe, Wait_probe_with.
  destruct (Status E x s0) as [[ready [e|]] s1]; [done|].
  destruct ready; [apply Wait_scan_eq|done].
Qed.

Section LocateMore.

Variable E : environ.
Variable x : Session.

(** X12. Whatever [Session.GetDOM] returns, it returns exactly one of an
    element and an error: with a nil error an element that belongs to the
    session it was asked on, with an error no element. *)
Theorem GetDOM_result_shape (xpath : string) (rt : list (bool * Z))
  (st st' : state) (ret : option Element) (err : option error) :
  Session_GetDOM E x xpath rt st = (Some (ret, err), st') ->
  match err with
  | None => exists we, ret = Some {| s := x; WebElement := we |}
  | Some _ => ret = None
  end.
Proof. rewrite Session_GetDOM_with. apply GetDOM_with_shape. Qed.

(** X13. Whatever [Session.Wait] returns, the index is a position of the
    list of paths when the error is nil, and [-1] when there is an error. In
    particular [Wait] on an empty list never returns a nil error. *)
Theorem Wait_result_bounds (xpaths : list string) (rt : list (bool * Z))
  (st st' : state) (selected : Z) (err : option error) :
  Session_Wait E x xpaths rt st = (Some (selected, err), st') ->
  match err with
  | None => 0 <= selected < Z.of_nat (length xpaths)
  | Some _ => selected = -1
  end.
Proof. rewrite Session_Wait_with. apply Wait_with_bounds. Qed.

End LocateMore.

Section RemoteMore.

Context {W : Type}.
Variable R : @remote W.

(** X16. Whatever [Session.GetDOMs] or [Element.GetDOMs] returns: with a
    nil error the slice is non-empty and every element in it belongs to the
    session asked (for an element: the session of that element); with an
    error the slice is nil. An empty answer of the remote end is never
    returned as a success. *)
Theorem GetDOMs_result_shape (x : Session) (e : Element) (xpath : string)
  (rt : list (bool * Z)) (w w' : W) (ret : list Element)
  (err : option error) :
  (Session_GetDOMs R x xpath rt w = (Some (ret, err), w') ->
   match err with
   | None => ret <> [] /\ Forall (fun el => s el = x) ret
   | Some _ => ret = []
   end)
  /\ (Element_GetDOMs R e xpath rt w = (Some (ret, err), w') ->
      match err with
      | None => ret <> [] /\ Forall (fun el => s el = s e) ret
      | Some _ => ret = []
      end).
Proof. split; apply GetDOMs_with_shape. Qed.

(** X17. Whatever [Element.GetDOM] returns: with a nil error a child
    element that belongs to the session of the element asked, with an
    error no element. *)
Theorem Element_GetDOM_result_shape (e : Element) (xpath : string)
  (rt : list (bool * Z)) (w w' : W) (ret : option Element)
  (err : option error) :
  Element_GetDOM R e xpath rt w = (Some (ret, err), w') ->
  match err with
  | None => exists we, ret = Some {| s := s e; WebElement := we |}
  | Some _ => ret = None
  end.
Proof. apply GetDOM_with_shape. Qed.

(** X18. Whatever [Element.Wait] returns, the index is a position of the
    list of paths when the error is nil, and [-1] when there is an error. *)
Theorem Element_Wait_result_bounds (e : Element) (xpaths : list string)
  (rt : list (bool * Z)) (w w' : W) (selected : Z) (err : option error) :
  Element_Wait R e xpaths rt w = (Some (selected, err), w') ->
  match err with
  | None => 0 <= selected < Z.of_nat (length xpaths)
  | Some _ => selected = -1
  end.
Proof. apply Wait_with_bounds. Qed.

(** X19. Whatever [ScrollIntoView] returns. If running the script fails,
    that error is returned and the element is never asked whether it is
    displayed. Otherwise the element was asked on [n] ticks and answered
    "not displayed" each time; then either the deadline was received
    ([ErrWaitTimeout] wrapped with the stack) or the element was asked once
    more, and the result is the error of that query if there is one, and nil
    only if the element is displayed. *)
Theorem ScrollIntoView_result (e : Element) (rt : list (bool * Z))
  (w w' : W) (r : option error) :
  Element_ScrollIntoView R e rt w = (Some r, w') ->
  let ran :=
    r_ExecuteScript R (WebDriver (s e)) scroll_script [WebElement e] w in
  match ran.1 with
  | Some er => r = Some er /\ w' = ran.2
  | None =>
      exists n : nat,
        (forall i, (i < n)%nat ->
           (e_IsDisplayed R (WebElement e)
              (after (displayed_probe R e) i ran.2)).1 = (false, None))
        /\ ((r = Some (Wrapf ErrWaitTimeout (r_Stack R))
             /\ w' = after (displayed_probe R e) n ran.2)
            \/ exists displayed err,
                 e_IsDisplayed R (WebElement e)
                   (after (displayed_probe R e) n ran.2)
                 = ((displayed, err), w')
                 /\ match err with
                    | Some er => r = Some er
                    | None => displayed = true /\ r = None
                    end)
  end.
Proof.
  unfold Element_ScrollIntoView. cbv zeta.
  destruct (r_ExecuteScript R _ _ _ w) as [[er|] w1]; cbn [fst snd].
  - by intros [= <- <-].
  - unfold waitOn. intros Hrun.
    destruct (waitOn_loop_inv _ _ _ _ _ _ Hrun) as (n & Hw & Hcase).
    exists n. split.
    + intros i Hi. specialize (Hw i Hi). unfold displayed_probe in Hw at 1.
      destruct (e_IsDisplayed R _ _) as [[displayed [er|]] w2]; [done|].
      by destruct displayed.
    + destruct Hcase as [(_ & -> & ->)|(dn & err & _ & Hfn & Hr)]; [by left|].
      right. unfold displayed_probe in Hfn at 1.
      destruct (e_IsDisplayed R _ _) as [[displayed [er|]] w2].
      * injection Hfn as <- <- <-. by exists displayed, (Some er).
      * destruct displayed; injection Hfn as <- <- <-.
        -- by exists true, None.
        -- by destruct Hr.
Qed.

End RemoteMore.

(** ** ClickDOM *)

Section ClickMore.

Context {W : Type}.
Variable R : @remote W.

Lemma find_with_keeps_count (f : @finder (W * nat)) (sess : Session)
  (xpath : string) (w : W) (c : nat) :
  (forall xp w0 c0, (f xp (w0, c0)).2.2 = c0) ->
  (find_with f sess xpath (w, c)).2.2 = c.
Proof.
  intros Hf. unfold find_with. specialize (Hf xpath w c).
  destruct (f xpath (w, c)) as [[o err] [w' c']]. cbn in Hf. subst c'.
  destruct (notFound err); [done|]. destruct err; [done|]. by destruct o.
Qed.

Lemma displayed_keeps_count (e : Element) (sel : list chan) (w : W)
  (c : nat) :
  (waitOn_loop (r_Stack R) (displayed_probe (counting_clicks R) e) sel
     (w, c)).2.2 = c.
Proof.
  revert w. induction sel as [|[|] sel IH]; intros w; [done| |done].
  cbn [waitOn_loop]. unfold displayed_probe at 1. cbn [e_IsDisplayed counting_clicks].
  destruct (e_IsDisplayed R (WebElement e) w) as [[displayed [er|]] w1]; [done|].
  destruct displayed; [done|]. apply IH.
Qed.

Lemma ScrollIntoView_keeps_count (e : Element) (rt : list (bool * Z))
  (w : W) (c : nat) :
  (Element_ScrollIntoView (counting_clicks R) e rt (w, c)).2.2 = c.
Proof.
  unfold Element_ScrollIntoView. cbn [r_ExecuteScript counting_clicks].
  destruct (r_ExecuteScript R _ _ _ w) as [[er|] w1]; [done|].
  apply displayed_keeps_count.
Qed.

(** One invocation of the probe clicks at most once, and only when it ends
    the wait; it reports success only after a click. *)
Lemma ClickDOM_probe_count (f : @finder (W * nat)) (sess : Session)
  (inner : W * nat -> list (bool * Z)) (xpath : string) (w : W) (c : nat) :
  (forall xp w0 c0, (f xp (w0, c0)).2.2 = c0) ->
  match ClickDOM_probe (counting_clicks R) f sess inner xpath (w, c) with
  | None => True
  | Some ((dn, err), (_, c')) =>
      (c' = c /\ (dn = true -> err <> None))
      \/ (c' = S c /\ dn = true)
  end.
Proof.
  intros Hf. unfold ClickDOM_probe.
  assert (Hc := find_with_keeps_count f sess xpath w c Hf).
  destruct (find_with f sess xpath (w, c)) as [[elem err] [w1 c1]].
  cbn in Hc. subst c1.
  destruct err as [e|].
  - destruct (is_ErrNotFound e); left; by split.
  - destruct elem as [el|]; [|done].
    assert (Hs := ScrollIntoView_keeps_count el (inner (w1, c)) w1 c).
    destruct (Element_ScrollIntoView _ _ _ _) as [[[e|]|] [w2 c2]];
      cbn in Hs; subst c2; [left; by split| |done].
    cbn [e_Click counting_clicks].
    destruct (e_Click R (WebElement el) w2) as [cerr w3]. by right.
Qed.

Lemma ClickDOM_loop_count (f : @finder (W * nat)) (sess : Session)
  (inner : W * nat -> list (bool * Z)) (xpath : string) (sel : list chan)
  (w : W) (c : nat) :
  (forall xp w0 c0, (f xp (w0, c0)).2.2 = c0) ->
  let run :=
    waitOn_loop_p (r_Stack R)
      (ClickDOM_probe (counting_clicks R) f sess inner xpath) sel (w, c) in
  (run.2.2 = c \/ run.2.2 = S c) /\ (run.1 = Some None -> run.2.2 = S c).
Proof.
  intros Hf. cbv zeta. revert w.
  induction sel as [|[|] sel IH]; intros w; cbn [waitOn_loop_p].
  - split; [by left|done].
  - assert (Hp := ClickDOM_probe_count f sess inner xpath w c Hf).
    destruct (ClickDOM_probe _ _ _ _ _ _) as [[[dn err] [w1 c1]]|].
    + destruct err as [e|].
      * cbn. split; [|done]. destruct Hp as [[-> _]|[-> _]]; auto.
      * destruct dn.
        -- cbn. destruct Hp as [[_ Hp]|[-> _]]; [by destruct Hp|]. auto.
        -- destruct Hp as [[-> _]|[_ Hp]]; [apply IH|done].
    + cbn. split; [by left|done].
  - cbn. split; [by left|done].
Qed.

(** X20. [Session.ClickDOM] and [Element.ClickDOM] click at most once,
    however many ticks are received and whatever the remote end answers;
    and when they return a nil error they have clicked exactly once. The
    clicks are counted by a world that increments a counter at each
    [Click]. *)
Theorem ClickDOM_clicks_at_most_once (x : Session) (e : Element)
  (inner : W * nat -> list (bool * Z)) (xpath : string)
  (rt : list (bool * Z)) (w : W) (c : nat) :
  let by_session :=
    Session_ClickDOM (counting_clicks R) x inner xpath rt (w, c) in
  let by_element :=
    Element_ClickDOM (counting_clicks R) e inner xpath rt (w, c) in
  (by_session.2.2 = c \/ by_session.2.2 = S c)
  /\ (by_session.1 = Some None -> by_session.2.2 = S c)
  /\ (by_element.2.2 = c \/ by_element.2.2 = S c)
  /\ (by_element.1 = Some None -> by_element.2.2 = S c).
Proof.
  cbv zeta. unfold Session_ClickDOM, Element_ClickDOM.
  split; [|split; [|split]].
  all: match goal with
       | |- context [ClickDOM_probe _ ?f ?sess _ _] =>
           edestruct (ClickDOM_loop_count f sess inner xpath
                        (selects (arm (timeout sess)) rt) w c) as [H1 H2];
           [| first [exact H1 | exact H2]]
       end.
  all: intros xp w0 c0; cbn [r_FindElement e_FindElement counting_clicks];
       first [ by destruct (r_FindElement R (WebDriver x) xp w0)
             | by destruct (e_FindElement R (WebElement e) xp w0) ].
Qed.

End ClickMore.

(** On probes that always return, [waitOn_loop_p] is [waitOn_loop]. *)
Lemma waitOn_loop_p_total {W} (stack : string) (fn : @probe W)
  (sel : list chan) (w : W) :
  waitOn_loop_p stack (fun w0 => Some (fn w0)) sel w
  = waitOn_loop stack fn sel w.
Proof.
  revert w. induction sel as [|[|] sel IH]; intros w; cbn; [done| |done].
  destruct (fn w) as [[dn [e|]] w']; [done|]. destruct dn; [done|]. apply IH.
Qed.

(** * Further instances *)

(** Closing the first of three sessions. *)
Lemma Close_removes_session_witness :
  registry_fresh three
  /\ exists st',
       Session_Close (machine 0) (session 1) three = Ret None st'
       /\ (forall y, y ∈ sessions st'
                     <-> y ∈ sessions three /\ same (session 1) y = false)
       /\ length (sessions three) = S (length (sessions st'))
       /\ smu st' = false
       /\ inst st' = inst three
       /\ hist st' = hist three ++ [EvQuit 1].
Proof.
  assert (Hf : registry_fresh three).
  { split; [by repeat constructor|].
    apply (bool_decide_unpack _). vm_compute. exact I. }
  split; [exact Hf|].
  apply (Close_removes_session (machine 0) (session 1) three Hf eq_refl).
  apply Exists_cons. left. reflexivity.
Defined.

(** A browser opened on the adopted engine and closed again. *)
Lemma New_then_Close_witness :
  registry_fresh adopted
  /\ exists x st1 st2,
       New (machine 0) "" 800 600 true (3 * Second) adopted
       = Ret (Some x, None) st1
       /\ Session_Close (machine 0) x st1 = Ret None st2
       /\ sessions st1 = [x]
       /\ sessions st2 = [].
Proof.
  assert (Hf : registry_fresh adopted).
  { split; [by constructor|]. apply NoDup_nil_2. }
  split; [exact Hf|].
  pose (o := New (machine 0) "" 800 600 true (3 * Second) adopted).
  pose (x := {| self := 0; WebDriver := length (hist adopted);
                timeout := 3 * Second |}).
  destruct (New_then_Close (machine 0) "" 800 600 true (3 * Second) adopted
              (state_of o) x Hf eq_refl eq_refl)
    as (st2 & Hc & Hs1 & Hs2 & _).
  exists x, (state_of o), st2.
  split; [vm_compute; reflexivity|]. split; [exact Hc|]. split; [exact Hs1|exact Hs2].
Defined.

(** The invariant on the adopted engine, kept by [New]. *)
Lemma registry_fresh_kept_witness :
  registry_fresh adopted
  /\ registry_fresh
       (state_of (New (machine 0) "" 800 600 true (3 * Second) adopted)).
Proof.
  assert (Hf : registry_fresh adopted).
  { split; [by constructor|]. apply NoDup_nil_2. }
  split; [exact Hf|].
  refine (proj1 (registry_fresh_kept (machine 0) adopted Hf eq_refl)
                "" 800 600 true (3 * Second)
                (Some {| self := 0; WebDriver := length (hist adopted);
                         timeout := 3 * Second |}, None) _ _).
  vm_compute. reflexivity.
Defined.

(** [Init] on the machine where the engine comes up at the fourth poll. *)
Lemma Init_outcomes_witness :
  exists r evs st',
    Init (machine 3) 9090 false initial = Ret r st'
    /\ hist st' = hist initial ++ evs
    /\ smu st' = false
    /\ sessions st' = sessions initial
    /\ (r = None <-> inst st' <> None)
    /\ (r = None <-> so_far is_Notify evs = 1%nat)
    /\ (r <> None -> so_far is_Notify evs = 0%nat)
    /\ (forall sv, inst st' = Some sv ->
         server_port sv = 9090 /\ 1000 <= 9090
         /\ exists dr, d sv = Some dr /\ port dr = 9090
                       /\ addr dr = hub_url 9090).
Proof.
  exact (Init_outcomes (machine 3) 9090 false initial eq_refl eq_refl).
Defined.

(** [Shutdown] twice on the spawned engine with two sessions. *)
Lemma Shutdown_twice_witness :
  exists st2,
    Shutdown (machine 3) (state_of (Shutdown (machine 3) busy)) = Ret tt st2
    /\ hist st2 = hist (state_of (Shutdown (machine 3) busy))
                  ++ [leave_alone_notice; complete_notice]
    /\ inst st2 = inst (state_of (Shutdown (machine 3) busy))
    /\ sessions st2 = [].
Proof.
  apply (Shutdown_twice (machine 3) busy);
    [reflexivity|exact registry_ok_busy|vm_compute; reflexivity].
Defined.

(** [New] after [Shutdown] of the spawned engine panics; after [Shutdown] of
    the adopted one it asks the hub of port 9090 again. *)
Lemma New_after_Shutdown_witness :
  New (machine 3) "" 800 600 true (3 * Second)
    (state_of (Shutdown (machine 3) busy))
  = Panic "nil pointer dereference" (state_of (Shutdown (machine 3) busy))
  /\ exists r st'',
       New (machine 0) "" 800 600 true (3 * Second)
         (state_of (Shutdown (machine 0) adopted)) = Ret r st''
       /\ hist st'' = hist (state_of (Shutdown (machine 0) adopted))
                      ++ [EvNewRemote (chrome_args "" 800 600 true)
                                      (hub_url 9090)].
Proof.
  split.
  - refine (New_after_Shutdown (machine 3) busy _ "" 800 600 true
              (3 * Second) eq_refl registry_ok_busy _).
    vm_compute. reflexivity.
  - refine (New_after_Shutdown (machine 0) adopted _ "" 800 600 true
              (3 * Second) eq_refl registry_ok_adopted _).
    vm_compute. reflexivity.
Defined.


(** [Init] then [Shutdown] on the machine where the engine is spawned. *)
Lemma Init_then_Shutdown_witness :
  exists sv st2 stopping,
    inst spawned = Some sv
    /\ Shutdown (machine 3) spawned = Ret tt st2
    /\ hist st2 = hist spawned ++ quit_events (machine 3) (sessions initial)
                  ++ stopping
    /\ smu st2 = false
    /\ if ownDriver sv
       then inst st2 = None
            /\ exists rest,
                 stopping = stopping_notice
                            :: EvGet (hub_url 9090 +:+ "/shutdown") :: rest
       else inst st2 = Some sv
            /\ stopping = [leave_alone_notice; complete_notice].
Proof.
  apply (Init_then_Shutdown (machine 3) 9090 false initial spawned).
  - discriminate.
  - lia.
  - reflexivity.
  - reflexivity.
  - vm_compute. reflexivity.
Defined.

(** A probe that reports done at its third invocation. *)
Lemma waitOn_returns_last_answer_witness :
  exists n : nat,
    waits third_time n 0%nat
    /\ (n < length five)%nat
    /\ ((@None error = Some (Wrapf ErrWaitTimeout "stack")
         /\ 3%nat = after third_time n 0%nat)
        \/ exists dn err,
             third_time (after third_time n 0%nat) = ((dn, err), 3%nat)
             /\ match err with
                | Some e => None = Some e
                | None => dn = true /\ @None error = None
                end).
Proof.
  apply (waitOn_returns_last_answer "stack" third_time (3 * Second) five
           0%nat 3%nat None).
  vm_compute. reflexivity.
Defined.



(** [GetDOM] for ["//b"] on the page where it is element 7 from the third
    search on. *)
Lemma GetDOM_result_shape_witness :
  exists we,
    Some {| s := session 1; WebElement := 7 |}
    = Some {| s := session 1; WebElement := we |}.
Proof.
  apply (GetDOM_result_shape (world 0 None 0 2 page) (session 1) "//b" five
           adopted
           (emit_all (replicate 3 (EvFindElement 1 "//b")) adopted)
           (Some {| s := session 1; WebElement := 7 |}) None).
  vm_compute. reflexivity.
Defined.

(** [Wait] for ["//a"] or ["//b"] selects the second path. *)
Lemma Wait_result_bounds_witness :
  0 <= 1 < Z.of_nat (length ["//a"; "//b"]).
Proof.
  apply (Wait_result_bounds (world 0 None 1 0 page) (session 1)
           ["//a"; "//b"] five adopted
           (emit_all [EvStatus 1; EvStatus 1; EvFindElement 1 "//a";
                      EvFindElement 1 "//b"] adopted)
           1 None).
  vm_compute. reflexivity.
Defined.

(** The answer of the remote end for a missing element, wrapped. *)
Lemma notFound_by_text_witness :
  notFound (Some (Wrapf (Foreign "no such element: Unable to locate element")
                    "while clicking"))
  = true
  /\ Session_find (machine 0) (session 1) "//a" adopted
     = ((None, Some ErrNotFound), emit (EvFindElement 1 "//a") adopted).
Proof.
  split.
  - apply (proj1 (proj2 (notFound_by_text
                           (Foreign "no such element: Unable to locate element")))).
    reflexivity.
  - apply (proj2 (proj2 (notFound_by_text
                           (Foreign "no such element: Unable to locate element")))
                 (machine 0) (session 1) "//a" adopted None).
    + reflexivity.
    + reflexivity.
Defined.

(** An operation retried once, then once more on a stale element, then
    successful. *)
Lemma NoStale_result_witness :
  exists n : nat,
    (forall i, (i < n)%nat ->
       retryable (settles (after (NoStale_probe settles) i 0%nat)).1 = true)
    /\ ((@None error = Some (Wrapf ErrWaitTimeout "stack")
         /\ 3%nat = after (NoStale_probe settles) n 0%nat)
        \/ (settles (after (NoStale_probe settles) n 0%nat) = (None, 3%nat)
            /\ retryable None = false)).
Proof.
  apply (NoStale_result "stack" (session 1) settles five 0%nat 3%nat None).
  vm_compute. reflexivity.
Defined.

(** [GetDOMs] in the shop, by session and by element. *)
Lemma GetDOMs_result_shape_witness :
  ([ {| s := session 1; WebElement := 7 |};
     {| s := session 1; WebElement := 8 |};
     {| s := session 1; WebElement := 9 |} ] <> []
   /\ Forall (fun el => s el = session 1)
        [ {| s := session 1; WebElement := 7 |};
          {| s := session 1; WebElement := 8 |};
          {| s := session 1; WebElement := 9 |} ])
  /\ ([ {| s := session 1; WebElement := 7 |};
        {| s := session 1; WebElement := 8 |};
        {| s := session 1; WebElement := 9 |} ] <> []
      /\ Forall (fun el => s el = s item)
           [ {| s := session 1; WebElement := 7 |};
             {| s := session 1; WebElement := 8 |};
             {| s := session 1; WebElement := 9 |} ]).
Proof.
  split.
  - apply (proj1 (GetDOMs_result_shape shop (session 1) item "//li" five
                    0%nat 3%nat _ None)).
    vm_compute. reflexivity.
  - apply (proj2 (GetDOMs_result_shape shop (session 1) item "//li" five
                    0%nat 3%nat _ None)).
    vm_compute. reflexivity.
Defined.

(** [Element.GetDOM] in the shop. *)
Lemma Element_GetDOM_result_shape_witness :
  exists we,
    Some {| s := session 1; WebElement := 7 |}
    = Some {| s := s item; WebElement := we |}.
Proof.
  apply (Element_GetDOM_result_shape shop item "//li" five 0%nat 3%nat
           (Some {| s := session 1; WebElement := 7 |}) None).
  vm_compute. reflexivity.
Defined.

(** [Element.Wait] in the shop selects the second path: the first is
    searched while nothing is found yet. *)
Lemma Element_Wait_result_bounds_witness :
  0 <= 1 < Z.of_nat (length ["//a"; "//b"]).
Proof.
  apply (Element_Wait_result_bounds shop item ["//a"; "//b"] five 0%nat
           3%nat 1 None).
  vm_compute. reflexivity.
Defined.

(** [ScrollIntoView] in the shop: the script runs, the element is not
    displayed at the first query and is at the second. *)
Lemma ScrollIntoView_result_witness :
  exists n : nat,
    (forall i, (i < n)%nat ->
       (e_IsDisplayed shop (WebElement item)
          (after (displayed_probe shop item) i 1%nat)).1 = (false, None))
    /\ Element_ScrollIntoView shop item five 0%nat = (Some None, 3%nat).
Proof.
  pose proof (ScrollIntoView_result shop item five 0%nat 3%nat None) as H.
  cbv zeta in H. cbn [r_ExecuteScript shop fst snd] in H.
  destruct H as (n & Hn & _); [vm_compute; reflexivity|].
  exists n. split; [exact Hn|]. vm_compute. reflexivity.
Defined.

(** [ClickDOM] in the shop clicks once. *)
Lemma ClickDOM_clicks_at_most_once_witness :
  (Session_ClickDOM (counting_clicks shop) (session 1) (fun _ => five)
     "//button" five (0%nat, 0%nat)).1 = Some None
  /\ (Session_ClickDOM (counting_clicks shop) (session 1) (fun _ => five)
        "//button" five (0%nat, 0%nat)).2.2 = 1%nat.
Proof.
  split; [vm_compute; reflexivity|].
  apply (proj1 (proj2 (ClickDOM_clicks_at_most_once shop (session 1) item
                         (fun _ => five) "//button" five 0%nat 0%nat))).
  vm_compute. reflexivity.
Defined.
